(** * YouTube Watch Time Counter: coordinator, extractor and formatters

    A shallow embedding of the extension's service worker
    ([entrypoints/background.ts]), of its content script (the per-page
    extractor) and of [utils/time-format.ts], with the properties the
    specification states about them.

    JavaScript numbers are IEEE 754 binary64 values; they are modelled by
    Rocq's primitive [float], whose operations are related to the executable
    specification [SpecFloat] by the library's [FloatAxioms]. *)

From Stdlib Require Import ZArith List String Ascii Bool Floats Lia DecimalString.
Import ListNotations.

Local Open Scope string_scope.
Local Open Scope Z_scope.

(** ** JavaScript primitives used by the sources *)

Module JS.

Abbreviation number := float.

(** [Number.isFinite(x)]. *)
Definition isFinite (x : number) : bool := negb (is_nan x) && negb (is_infinity x).

(** [x > y] and [x < y] on numbers: false as soon as one side is NaN. *)
Definition gt (x y : number) : bool := (y <? x)%float.
Definition lt (x y : number) : bool := (x <? y)%float.

(** [x === y] on numbers. *)
Definition strictEq (x y : number) : bool := (x =? y)%float.

(** Truthiness of a number: [0], [-0] and [NaN] are falsy. *)
Definition truthy (x : number) : bool := negb (is_zero x) && negb (is_nan x).

(** [v || d] where [v] is a possibly absent ([undefined]) number. *)
Definition orDefault (v : option number) (d : number) : number :=
  match v with
  | Some x => if truthy x then x else d
  | None => d
  end.

(** The number whose value is the integer [z] (rounded to nearest even
    when [z] needs more than 53 bits). *)
Definition ofZ (z : Z) : number := SF2Prim (binary_normalize prec emax z 0 false).

(** [Math.floor(x)]. *)
Definition Math_floor (x : number) : number :=
  match Prim2SF x with
  | S754_finite s m e =>
      if 0 <=? e then x
      else ofZ (Z.shiftr (cond_Zopp s (Zpos m)) (- e))
  | _ => x
  end.

(** [Math.max(x, y)]: NaN if either is NaN, and [+0] is larger than [-0]. *)
Definition Math_max (x y : number) : number :=
  if is_nan x || is_nan y then nan
  else if (x <? y)%float then y
  else if (y <? x)%float then x
  else if get_sign x then y else x.

(** [x % y]: the remainder of the truncating division, computed exactly;
    it takes the sign of the dividend. *)
Definition rem (x y : number) : number :=
  match Prim2SF x, Prim2SF y with
  | S754_nan, _ | _, S754_nan => nan
  | S754_infinity _, _ => nan
  | _, S754_zero _ => nan
  | _, S754_infinity _ => x
  | S754_zero _, _ => x
  | S754_finite sx mx ex, S754_finite _ my ey =>
      let e := Z.min ex ey in
      let X := Zpos mx * 2 ^ (ex - e) in
      let Y := Zpos my * 2 ^ (ey - e) in
      let R := X mod Y in
      if R =? 0 then (if sx then neg_zero else zero)
      else SF2Prim (binary_normalize prec emax (cond_Zopp sx R) e false)
  end.

(** The integer a number denotes, when it is finite and integral. *)
Definition integerValue (x : number) : option Z :=
  match Prim2SF x with
  | S754_zero _ => Some 0
  | S754_finite s m e =>
      if 0 <=? e then Some (cond_Zopp s (Zpos m * 2 ^ e))
      else if (Zpos m) mod 2 ^ (- e) =? 0
           then Some (cond_Zopp s (Zpos m / 2 ^ (- e)))
           else None
  | _ => None
  end.

(** [String(x)], as a template literal applies it.  Integral values below
    [2^53] in magnitude print as their decimal digits ([-0] prints as "0");
    fractional values and larger magnitudes, which JavaScript prints with
    a shortest round-trip digit string (padded with zeros from [2^53] on)
    or an exponent, are outside this model and give [None]. *)
Definition Number_toString (x : number) : option string :=
  if is_nan x then Some "NaN"
  else if is_infinity x then Some (if get_sign x then "-Infinity" else "Infinity")
  else match integerValue x with
       | Some z => if Z.abs z <? 2 ^ 53
                   then Some (NilZero.string_of_int (Z.to_int z))
                   else None
       | None => None
       end.

Fixpoint repeatChar (c : ascii) (n : nat) : string :=
  match n with
  | O => EmptyString
  | S n' => String c (repeatChar c n')
  end.

(** [s.padStart(n, c)] for a one-character pad string. *)
Definition padStart (s : string) (n : nat) (c : ascii) : string :=
  repeatChar c (n - String.length s) ++ s.

(** [parts.join(sep)]. *)
Fixpoint join (sep : string) (parts : list string) : string :=
  match parts with
  | [] => EmptyString
  | [p] => p
  | p :: rest => p ++ sep ++ join sep rest
  end.

End JS.

(** ** utils/time-format.ts *)

Module TimeFormat.
Import JS.

Definition bind {A B} (o : option A) (k : A -> option B) : option B :=
  match o with Some a => k a | None => None end.
#[local] Notation "x <- e ;; k" := (bind e (fun x => k))
  (at level 61, e at next level, right associativity).

(** Compact format for the badge text. *)
Definition formatDuration (totalSeconds : number) : option string :=
  if negb (isFinite totalSeconds) || lt totalSeconds 0 then Some "0m"
  else
    let hours := Math_floor (totalSeconds / 3600) in
    let minutes := Math_floor (rem totalSeconds 3600 / 60) in
    if strictEq hours 0 then
      m <- Number_toString minutes ;; Some (m ++ "m")
    else
      h <- Number_toString hours ;;
      m <- Number_toString minutes ;;
      Some (h ++ "h" ++ m ++ "m").

(** [`${n} unit${n !== 1 ? 's' : ''}`]. *)
Definition plural (n : number) (unit : string) : option string :=
  d <- Number_toString n ;;
  Some (d ++ " " ++ unit ++ (if negb (strictEq n 1) then "s" else EmptyString)).

(** Full human-readable format for the popup header. *)
Definition formatDurationLong (totalSeconds : number) : option string :=
  if negb (isFinite totalSeconds) || lt totalSeconds 0 then Some "0 minutes"
  else
    let hours := Math_floor (totalSeconds / 3600) in
    let minutes := Math_floor (rem totalSeconds 3600 / 60) in
    let seconds := Math_floor (rem totalSeconds 60) in
    parts1 <- (if gt hours 0
               then h <- plural hours "hour" ;; Some [h]
               else Some []) ;;
    parts2 <- (if gt minutes 0
               then m <- plural minutes "minute" ;; Some (parts1 ++ [m])%list
               else Some parts1) ;;
    parts3 <- (if (List.length parts2 =? 0)%nat
               then s <- plural seconds "second" ;; Some (parts2 ++ [s])%list
               else Some parts2) ;;
    Some (join ", " parts3).

(** Timestamp format for the per-tab display. *)
Definition formatTimestamp (totalSeconds : number) : option string :=
  if negb (isFinite totalSeconds) || lt totalSeconds 0 then Some "0:00"
  else
    let hours := Math_floor (totalSeconds / 3600) in
    let minutes := Math_floor (rem totalSeconds 3600 / 60) in
    let secs := Math_floor (rem totalSeconds 60) in
    if gt hours 0 then
      h <- Number_toString hours ;;
      m <- Number_toString minutes ;;
      s <- Number_toString secs ;;
      Some (h ++ ":" ++ padStart m 2 "0" ++ ":" ++ padStart s 2 "0")
    else
      m <- Number_toString minutes ;;
      s <- Number_toString secs ;;
      Some (m ++ ":" ++ padStart s 2 "0").

End TimeFormat.


(** ** JavaScript strings

    Strings are sequences of 8-bit code units; the helpers below follow the
    methods the sources call. *)

Module Str.

Definition dquote : ascii := ascii_of_nat 34.

(** White space as [\s] and [trim] see it, among 8-bit code units. *)
Definition isSpace (c : ascii) : bool :=
  let n := nat_of_ascii c in
  ((9 <=? n) && (n <=? 13) || (n =? 32) || (n =? 160))%nat.

Definition isDigit (c : ascii) : bool :=
  let n := nat_of_ascii c in ((48 <=? n) && (n <=? 57))%nat.

Definition isEmpty (s : string) : bool :=
  match s with EmptyString => true | _ => false end.

Fixpoint drop (n : nat) (s : string) : string :=
  match n, s with
  | S n', String _ s' => drop n' s'
  | _, _ => s
  end.

(** [s.includes(pat)]. *)
Fixpoint includes (pat s : string) : bool :=
  String.prefix pat s ||
  match s with
  | EmptyString => false
  | String _ s' => includes pat s'
  end.

(** [s.replace(pat, rep)] for a string pattern: the first occurrence only. *)
Fixpoint replaceFirst (pat rep s : string) : string :=
  if String.prefix pat s then rep ++ drop (String.length pat) s
  else match s with
       | EmptyString => EmptyString
       | String c s' => String c (replaceFirst pat rep s')
       end.

Fixpoint trimStart (s : string) : string :=
  match s with
  | String c s' => if isSpace c then trimStart s' else s
  | EmptyString => EmptyString
  end.

Fixpoint trimEnd (s : string) : string :=
  match s with
  | String c s' =>
      let t := trimEnd s' in
      if isSpace c && isEmpty t then EmptyString else String c t
  | EmptyString => EmptyString
  end.

(** [s.trim()]. *)
Definition trim (s : string) : string := trimEnd (trimStart s).

(** If [s] starts with [pat], what follows it. *)
Definition stripPrefix (pat s : string) : option string :=
  if String.prefix pat s then Some (drop (String.length pat) s) else None.

(** The longest run of digits at the head of [s], and the rest. *)
Fixpoint spanDigits (s : string) : string * string :=
  match s with
  | String c s' =>
      if isDigit c then let (ds, r) := spanDigits s' in (String c ds, r)
      else (EmptyString, s)
  | EmptyString => (EmptyString, EmptyString)
  end.

(** The value of a string of decimal digits. *)
Fixpoint digitsValue (acc : Z) (s : string) : Z :=
  match s with
  | String c s' => digitsValue (10 * acc + (Z.of_nat (nat_of_ascii c) - 48)) s'
  | EmptyString => acc
  end.

End Str.

(** ** utils/types.ts *)

Module Types.
Import JS.

Inductive VideoType := video | short.

(** A record of the coordinator's mapping, as the object is at run time.
    Tab ids are the integers the browser hands out.
    Besides the fields of the interface it has the two properties the
    sources read without the interface declaring them: [playbackRate] (read
    by the coordinator's aggregate) and [isLiveStream] (read by the popup);
    [None] is [undefined], the property being absent from the object. *)
Record TabDurationInfo := {
  tabId : Z;
  url : string;
  title : string;
  durationSeconds : number;
  currentTimeSeconds : number;
  playbackRate : option number;
  isLoading : bool;
  isLiveStream : option bool;
  videoType : VideoType
}.

(** A message as the coordinator receives it: the fields of the interface,
    the [isLiveStream] property every object built by [extractDuration]
    has, and the [playbackRate] property both handlers read off the message
    without the interface declaring it ([None] is [undefined]: the object
    has no such property). *)
Record DurationResponse := {
  resp_durationSeconds : number;
  resp_currentTimeSeconds : number;
  resp_playbackRate : option number;
  resp_isLiveStream : bool;
  resp_isLoading : bool;
  resp_videoType : VideoType;
  resp_url : string;
  resp_title : string
}.

Record PopupData := {
  tabs : list TabDurationInfo;
  totalDurationSeconds : number;
  totalFormatted : option string;
  popup_displayEnabled : bool
}.

End Types.

(** ** The content script: the per-page extractor *)

Module Content.
Import JS Str Types.

(** What the extractor reads of a [<video>] element. *)
Record Video := {
  duration : number;
  currentTime : number;
  paused : bool
}.

(** Reading a property path on a loosely typed host object either raises or
    gives a value. *)
Inductive access (A : Type) : Type :=
| Threw
| Got (a : A).
Arguments Threw {A}.
Arguments Got {A} a.

(** A value of unknown type, through the two coercions the code applies to
    it: [if (v)] and [Number(v)] (which raises on a symbol). *)
Record loose := {
  toBoolean : bool;
  toNumber : access number
}.

(** The page, as far as the extractor looks at it. *)
Record Page := {
  href : string;                              (* location.href *)
  documentTitle : string;                     (* document.title *)
  activeRenderer : option (option Video);     (* ytd-reel-video-renderer[is-active], and the video in it *)
  reelVideos : list Video;                    (* ytd-reel-video-renderer video *)
  moviePlayerVideo : option Video;            (* #movie_player video *)
  html5MainVideo : option Video;              (* video.html5-main-video *)
  anyVideo : option Video;                    (* video *)
  flexyLengthSeconds : access loose;          (* watchFlexy?.playerData?.videoDetails?.lengthSeconds *)
  flexyIsLive : access bool;                  (* truthiness of ...?.videoDetails?.isLive *)
  initialLengthSeconds : access loose;        (* ytInitialPlayerResponse?.videoDetails?.lengthSeconds *)
  initialIsLive : access bool;
  scripts : list string;                      (* textContent of each script element *)
  watchMetadataHeading : option string;       (* h1.ytd-watch-metadata yt-formatted-string *)
  infoHeading : option string;                (* #info h1 yt-formatted-string *)
  activeReelHeading : option string           (* ytd-reel-video-renderer[is-active] h2 *)
}.

(** Computations that may raise. *)
Inductive result (A : Type) : Type :=
| Ok (a : A)
| Raised.
Arguments Ok {A} a.
Arguments Raised {A}.

Definition rbind {A B} (r : result A) (k : A -> result B) : result B :=
  match r with Ok a => k a | Raised => Raised end.
#[local] Notation "x <~ e ;; k" := (rbind e (fun x => k))
  (at level 61, e at next level, right associativity).

Definition read {A} (a : access A) : result A :=
  match a with Got v => Ok v | Threw => Raised end.

(** [try { body } catch { handler }]. *)
Definition tryCatch {A} (body handler : result A) : result A :=
  match body with Ok a => Ok a | Raised => handler end.

Definition orElse {A} (a b : option A) : option A :=
  match a with Some _ => a | None => b end.

Definition getMainVideo (p : Page) : option Video :=
  let isShort := includes "/shorts/" (href p) in
  let general :=
    orElse (moviePlayerVideo p) (orElse (html5MainVideo p) (anyVideo p)) in
  if isShort then
    match activeRenderer p with
    | Some (Some v) => Some v
    | _ =>
        match find (fun v => negb (paused v) && gt (currentTime v) 0) (reelVideos p) with
        | Some v => Some v
        | None =>
            match reelVideos p with
            | v :: _ => Some v
            | [] => general
            end
        end
    end
  else general.

Definition usable (parsed : number) : bool := isFinite parsed && gt parsed 0.

(** One structured source: the body of the [try] block of methods 1 and 2. *)
Definition fromLengthField (field : access loose) : result (option number) :=
  lengthSeconds <~ read field ;;
  if toBoolean lengthSeconds then
    parsed <~ read (toNumber lengthSeconds) ;;
    Ok (if usable parsed then Some parsed else None)
  else Ok None.

(** A match of ["lengthSeconds"\s*:\s*"(\d+)"] starting at the head of [s]:
    the captured digits. *)
Definition matchLengthHere (s : string) : option string :=
  match stripPrefix (String dquote ("lengthSeconds" ++ String dquote EmptyString)) s with
  | None => None
  | Some r1 =>
      match trimStart r1 with
      | String ":" r2 =>
          match trimStart r2 with
          | String q r3 =>
              if Ascii.eqb q dquote then
                let (ds, r4) := spanDigits r3 in
                if isEmpty ds then None
                else match r4 with
                     | String q' _ => if Ascii.eqb q' dquote then Some ds else None
                     | EmptyString => None
                     end
              else None
          | EmptyString => None
          end
      | _ => None
      end
  end.

(** [text.match(...)]: the leftmost match. *)
Fixpoint matchLength (s : string) : option string :=
  match matchLengthHere s with
  | Some ds => Some ds
  | None =>
      match s with
      | EmptyString => None
      | String _ s' => matchLength s'
      end
  end.

(** Method 3: the loop over the script elements. *)
Fixpoint scanScripts (texts : list string) : option number :=
  match texts with
  | [] => None
  | text :: rest =>
      if isEmpty text || negb (includes "lengthSeconds" text) then scanScripts rest
      else match matchLength text with
           | Some ds =>
               let parsed := ofZ (digitsValue 0 ds) in
               if usable parsed then Some parsed else scanScripts rest
           | None => scanScripts rest
           end
  end.

(** The three strategies in order.  In each [try] block [Some d] stands for
    [return d] and [None] for leaving the block; the [catch] blocks are
    empty, so a raise leaves the block too. *)
Definition getPageDataDuration (p : Page) : result (option number) :=
  m1 <~ tryCatch (fromLengthField (flexyLengthSeconds p)) (Ok None) ;;
  match m1 with
  | Some d => Ok (Some d)
  | None =>
      m2 <~ tryCatch (fromLengthField (initialLengthSeconds p)) (Ok None) ;;
      match m2 with
      | Some d => Ok (Some d)
      | None =>
          m3 <~ tryCatch (Ok (scanScripts (scripts p))) (Ok None) ;;
          match m3 with
          | Some d => Ok (Some d)
          | None => Ok None
          end
      end
  end.

(** [x === Infinity]. *)
Definition isInfinity (x : number) : bool := strictEq x infinity.

Definition isLiveStream (p : Page) : result bool :=
  l1 <~ tryCatch (read (flexyIsLive p)) (Ok false) ;;
  if l1 then Ok true
  else
    l2 <~ tryCatch (read (initialIsLive p)) (Ok false) ;;
    if l2 then Ok true
    else
      match getMainVideo p with
      | Some v => Ok (isInfinity (duration v))
      | None => Ok false
      end.

Definition resolveTitle (p : Page) : string :=
  let title := trim (replaceFirst " - YouTube" EmptyString (documentTitle p)) in
  if String.eqb title "YouTube" || isEmpty title then
    let videoTitle :=
      orElse (option_map trim (watchMetadataHeading p))
        (orElse (option_map trim (infoHeading p))
                (option_map trim (activeReelHeading p))) in
    match videoTitle with
    | Some t => if isEmpty t then title else t
    | None => title
    end
  else title.

(** The media element's own duration, when it is finite and positive. *)
Definition videoDuration (video : option Video) : option number :=
  match video with
  | Some v => if isFinite (duration v) && gt (duration v) 0 then Some (duration v) else None
  | None => None
  end.

Definition extractDuration (p : Page) : result DurationResponse :=
  let video := getMainVideo p in
  let url := href p in
  let title := resolveTitle p in
  let isShort := includes "/shorts/" url in
  live <~ isLiveStream p ;;
  let currentTime :=
    match video with Some v => currentTime v | None => 0%float end in
  let vt := if isShort then short else Types.video in
  match videoDuration video with
  | Some d =>
      Ok {| resp_durationSeconds := d;
            resp_currentTimeSeconds := currentTime;
            resp_playbackRate := None;
            resp_isLiveStream := live;
            resp_isLoading := false;
            resp_videoType := vt;
            resp_url := url;
            resp_title := title |}
  | None =>
      pageDataDuration <~ getPageDataDuration p ;;
      match pageDataDuration with
      | Some d =>
          Ok {| resp_durationSeconds := d;
                resp_currentTimeSeconds := currentTime;
                resp_playbackRate := None;
                resp_isLiveStream := live;
                resp_isLoading := false;
                resp_videoType := vt;
                resp_url := url;
                resp_title := title |}
      | None =>
          Ok {| resp_durationSeconds := 0;
                resp_currentTimeSeconds := 0;
                resp_playbackRate := None;
                resp_isLiveStream := live;
                resp_isLoading := true;
                resp_videoType := vt;
                resp_url := url;
                resp_title := title |}
      end
  end.

End Content.

(** ** The service worker: the coordinator *)

Module Background.
Import JS Str Types TimeFormat.

(** *** [Map<number, TabDurationInfo>]

    A JavaScript [Map] iterates in insertion order, and the aggregate adds
    floating-point numbers in that order: the mapping is an association
    list, with [set] keeping the place of a key already present. *)

Definition TabMap := list (Z * TabDurationInfo).

Fixpoint map_set (k : Z) (v : TabDurationInfo) (m : TabMap) : TabMap :=
  match m with
  | [] => [(k, v)]
  | (k', v') :: m' => if k' =? k then (k, v) :: m' else (k', v') :: map_set k v m'
  end.

Definition map_delete (k : Z) (m : TabMap) : TabMap :=
  filter (fun e => negb (fst e =? k)) m.

Definition map_get (k : Z) (m : TabMap) : option TabDurationInfo :=
  option_map snd (find (fun e => fst e =? k) m).

Definition map_has (k : Z) (m : TabMap) : bool :=
  existsb (fun e => fst e =? k) m.

Definition map_values (m : TabMap) : list TabDurationInfo := map snd m.

(** *** The browser, as the coordinator uses it *)

Inductive Task :=
| PersistTask                             (* the callback of schedulePersist *)
| PullTask (tabId : Z) (retries : Z).     (* () => requestDurationFromTab(tabId, retries) *)

(** An element of the stored [tabDurationsCache] array. *)
Inductive CacheItem :=
| ItemFalsy                               (* null and the like *)
| ItemUnkeyed                             (* an object whose tabId is not a number *)
| ItemInfo (info : TabDurationInfo).

(** A call the coordinator makes on the browser. *)
Inductive Call :=
| SetBadgeText (text : option string)
| SetBadgeBackgroundColor (color : string)
| StorageSetCache (data : list TabDurationInfo)
| StorageSetDisplayEnabled (v : bool)
| SetTimeout (handle : nat) (task : Task) (delay : Z)
| SendGetDuration (tabId : Z).

(** The badge text is [None] when the aggregate is too large for
    [Number_toString] as modelled (see [JS.Number_toString]). *)
Record Browser := {
  badgeText : option string;
  badgeBackgroundColor : option string;
  storedDisplayEnabled : option bool;             (* None: absent or not a boolean *)
  storedTabDurationsCache : option (list CacheItem); (* None: absent or not an array *)
  timers : list (nat * Task);                     (* pending timeouts *)
  nextTimer : nat;
  inflight : list (Z * Z);                        (* getDuration requests awaiting their answer: tab, retries *)
  calls : list Call                               (* every call so far, latest first *)
}.

(** The variables of the closure of [defineBackground]. *)
Record Coordinator := {
  tabDurations : TabMap;
  displayEnabled : bool;
  persistTimeout : option nat
}.

Record World := {
  coord : Coordinator;
  browser : Browser
}.

Definition logCall (c : Call) (b : Browser) : Browser :=
  {| badgeText := badgeText b;
     badgeBackgroundColor := badgeBackgroundColor b;
     storedDisplayEnabled := storedDisplayEnabled b;
     storedTabDurationsCache := storedTabDurationsCache b;
     timers := timers b;
     nextTimer := nextTimer b;
     inflight := inflight b;
     calls := c :: calls b |}.

Definition setBadgeText (text : option string) (b : Browser) : Browser :=
  let b := logCall (SetBadgeText text) b in
  {| badgeText := text;
     badgeBackgroundColor := badgeBackgroundColor b;
     storedDisplayEnabled := storedDisplayEnabled b;
     storedTabDurationsCache := storedTabDurationsCache b;
     timers := timers b;
     nextTimer := nextTimer b;
     inflight := inflight b;
     calls := calls b |}.

Definition setBadgeBackgroundColor (color : string) (b : Browser) : Browser :=
  let b := logCall (SetBadgeBackgroundColor color) b in
  {| badgeText := badgeText b;
     badgeBackgroundColor := Some color;
     storedDisplayEnabled := storedDisplayEnabled b;
     storedTabDurationsCache := storedTabDurationsCache b;
     timers := timers b;
     nextTimer := nextTimer b;
     inflight := inflight b;
     calls := calls b |}.

(** [browser.storage.local.set({ tabDurationsCache: data })]; what is read
    back later is what was stored. *)
Definition storageSetCache (data : list TabDurationInfo) (b : Browser) : Browser :=
  let b := logCall (StorageSetCache data) b in
  {| badgeText := badgeText b;
     badgeBackgroundColor := badgeBackgroundColor b;
     storedDisplayEnabled := storedDisplayEnabled b;
     storedTabDurationsCache := Some (map ItemInfo data);
     timers := timers b;
     nextTimer := nextTimer b;
     inflight := inflight b;
     calls := calls b |}.

Definition storageSetDisplayEnabled (v : bool) (b : Browser) : Browser :=
  let b := logCall (StorageSetDisplayEnabled v) b in
  {| badgeText := badgeText b;
     badgeBackgroundColor := badgeBackgroundColor b;
     storedDisplayEnabled := Some v;
     storedTabDurationsCache := storedTabDurationsCache b;
     timers := timers b;
     nextTimer := nextTimer b;
     inflight := inflight b;
     calls := calls b |}.

(** [setTimeout(task, delay)]: a fresh handle. *)
Definition setTimeout (task : Task) (delay : Z) (b : Browser) : nat * Browser :=
  let h := nextTimer b in
  let b := logCall (SetTimeout h task delay) b in
  (h, {| badgeText := badgeText b;
         badgeBackgroundColor := badgeBackgroundColor b;
         storedDisplayEnabled := storedDisplayEnabled b;
         storedTabDurationsCache := storedTabDurationsCache b;
         timers := (timers b ++ [(h, task)])%list;
         nextTimer := S h;
         inflight := inflight b;
         calls := calls b |}).

Definition setTimers (ts : list (nat * Task)) (b : Browser) : Browser :=
  {| badgeText := badgeText b;
     badgeBackgroundColor := badgeBackgroundColor b;
     storedDisplayEnabled := storedDisplayEnabled b;
     storedTabDurationsCache := storedTabDurationsCache b;
     timers := ts;
     nextTimer := nextTimer b;
     inflight := inflight b;
     calls := calls b |}.

Definition setInflight (fl : list (Z * Z)) (b : Browser) : Browser :=
  {| badgeText := badgeText b;
     badgeBackgroundColor := badgeBackgroundColor b;
     storedDisplayEnabled := storedDisplayEnabled b;
     storedTabDurationsCache := storedTabDurationsCache b;
     timers := timers b;
     nextTimer := nextTimer b;
     inflight := fl;
     calls := calls b |}.

(** [sendMessage('getDuration', undefined, tabId)]: the request is in
    flight until the transport answers or rejects. *)
Definition sendGetDuration (tabId retries : Z) (b : Browser) : Browser :=
  let b := logCall (SendGetDuration tabId) b in
  setInflight (inflight b ++ [(tabId, retries)])%list b.

Definition onBrowser (f : Browser -> Browser) (w : World) : World :=
  {| coord := coord w; browser := f (browser w) |}.

Definition setTabDurations (m : TabMap) (w : World) : World :=
  {| coord := {| tabDurations := m;
                 displayEnabled := displayEnabled (coord w);
                 persistTimeout := persistTimeout (coord w) |};
     browser := browser w |}.

Definition setDisplayEnabled (v : bool) (w : World) : World :=
  {| coord := {| tabDurations := tabDurations (coord w);
                 displayEnabled := v;
                 persistTimeout := persistTimeout (coord w) |};
     browser := browser w |}.

Definition setPersistTimeout (h : option nat) (w : World) : World :=
  {| coord := {| tabDurations := tabDurations (coord w);
                 displayEnabled := displayEnabled (coord w);
                 persistTimeout := h |};
     browser := browser w |}.

(** *** The functions of the closure *)

Definition YOUTUBE_VIDEO_RE (url : string) : bool :=
  String.prefix "https://www.youtube.com/watch" url.

Definition YOUTUBE_SHORTS_RE (url : string) : bool :=
  String.prefix "https://www.youtube.com/shorts/" url.

Definition isYouTubeVideoUrl (url : option string) : bool :=
  match url with
  | None => false
  | Some u => if isEmpty u then false else YOUTUBE_VIDEO_RE u || YOUTUBE_SHORTS_RE u
  end.

(** One turn of the loop of [calculateTotalRemaining]. *)
Definition addRemaining (totalRemaining : number) (info : TabDurationInfo) : number :=
  if negb (isLoading info) then
    let remaining :=
      ((durationSeconds info - currentTimeSeconds info) / orDefault (playbackRate info) 1)%float in
    if isFinite remaining && gt remaining 0 then (totalRemaining + remaining)%float
    else totalRemaining
  else totalRemaining.

Definition calculateTotalRemaining (m : TabMap) : number :=
  fold_left addRemaining (map_values m) 0%float.

Definition schedulePersist (w : World) : World :=
  match persistTimeout (coord w) with
  | Some _ => w
  | None =>
      let (h, b) := setTimeout PersistTask 2000 (browser w) in
      setPersistTimeout (Some h) {| coord := coord w; browser := b |}
  end.

(** The callback [schedulePersist] registers. *)
Definition persistNow (w : World) : World :=
  let w := setPersistTimeout None w in
  let data := map_values (tabDurations (coord w)) in
  onBrowser (storageSetCache data) w.

Definition updateBadge (w : World) : World :=
  let totalSeconds := calculateTotalRemaining (tabDurations (coord w)) in
  if negb (displayEnabled (coord w)) then
    schedulePersist (onBrowser (setBadgeText (Some EmptyString)) w)
  else
    let text := if gt totalSeconds 0 then formatDuration totalSeconds else Some EmptyString in
    schedulePersist
      (onBrowser (setBadgeBackgroundColor "#CC0000")
         (onBrowser (setBadgeText text) w)).

(** How a [getDuration] request ends. *)
Inductive PullOutcome :=
| Rejected
| Responded (response : DurationResponse).

(** The record both handlers build from a message.  [playbackRate] is
    copied from the message as the other fields are; [isLiveStream] is not
    copied. *)
Definition recordOf (tabId : Z) (data : DurationResponse) : TabDurationInfo :=
  {| tabId := tabId;
     url := resp_url data;
     title := resp_title data;
     durationSeconds := resp_durationSeconds data;
     currentTimeSeconds := resp_currentTimeSeconds data;
     playbackRate := resp_playbackRate data;
     isLoading := resp_isLoading data;
     isLiveStream := None;
     videoType := resp_videoType data |}.

(** [requestDurationFromTab] up to its [await]. *)
Definition requestDurationFromTab (tabId : Z) (retries : Z) (w : World) : World :=
  onBrowser (sendGetDuration tabId retries) w.

(** [requestDurationFromTab] from its [await] on: the rest of the [try]
    block when the transport answered, the empty [catch] block when it
    rejected. *)
Definition requestDurationFromTab_resume
    (tabId : Z) (retries : Z) (o : PullOutcome) (w : World) : World :=
  match o with
  | Responded response =>
      let w := setTabDurations (map_set tabId (recordOf tabId response) (tabDurations (coord w))) w in
      let w := updateBadge w in
      if resp_isLoading response && (0 <? retries) then
        onBrowser (fun b => snd (setTimeout (PullTask tabId (retries - 1)) 3000 b)) w
      else w
  | Rejected => w
  end.

Record Tab := {
  tab_id : option Z;
  tab_discarded : bool
}.

Definition someIds (tabs : list Tab) : list Z :=
  flat_map (fun t => match tab_id t with Some i => [i] | None => [] end) tabs.

(** [scanAllYouTubeTabs] from the answer of [tabs.query] to the
    [Promise.allSettled]. *)
Definition scanAllYouTubeTabs_queried (tabs : list Tab) (w : World) : World :=
  let activeTabIds := someIds tabs in
  let kept := filter (fun e => existsb (Z.eqb (fst e)) activeTabIds) (tabDurations (coord w)) in
  let w := setTabDurations kept w in
  fold_left (fun w i => requestDurationFromTab i 2 w)
            (someIds (filter (fun t => negb (tab_discarded t)) tabs)) w.

(** Restoring the persisted state when [storage.local.get] answers. *)
Definition restoreCache (items : list CacheItem) (m : TabMap) : TabMap :=
  fold_left (fun m item =>
               match item with
               | ItemInfo info => map_set (tabId info) info m
               | _ => m
               end) items m.

Definition onStorageLoaded (w : World) : World :=
  let w := match storedDisplayEnabled (browser w) with
           | Some v => setDisplayEnabled v w
           | None => w
           end in
  let w := match storedTabDurationsCache (browser w) with
           | Some items => setTabDurations (restoreCache items (tabDurations (coord w))) w
           | None => w
           end in
  updateBadge w.

Definition onRemoved (tabId : Z) (w : World) : World :=
  if map_has tabId (tabDurations (coord w)) then
    updateBadge (setTabDurations (map_delete tabId (tabDurations (coord w))) w)
  else w.

Definition laterPull (tabId : Z) (delay : Z) (w : World) : World :=
  onBrowser (fun b => snd (setTimeout (PullTask tabId 2) delay b)) w.

Definition onUpdated (tabId : Z) (statusComplete : bool) (tabUrl : option string) (w : World) : World :=
  if statusComplete && negb (match tabUrl with Some u => isEmpty u | None => true end) then
    if isYouTubeVideoUrl tabUrl then laterPull tabId 1000 w
    else if map_has tabId (tabDurations (coord w)) then
      updateBadge (setTabDurations (map_delete tabId (tabDurations (coord w))) w)
    else w
  else w.

Definition onHistoryStateUpdated (frameId : Z) (tabId : Z) (detailsUrl : string) (w : World) : World :=
  if negb (frameId =? 0) then w
  else if isYouTubeVideoUrl (Some detailsUrl) then laterPull tabId 1500 w
  else if map_has tabId (tabDurations (coord w)) then
    updateBadge (setTabDurations (map_delete tabId (tabDurations (coord w))) w)
  else w.

(** [onMessage('reportDuration', ...)]; [senderTab] is [message.sender.tab?.id]. *)
Definition onReportDuration (senderTab : option Z) (data : DurationResponse) (w : World) : World :=
  match senderTab with
  | None => w
  | Some tabId =>
      if negb (isYouTubeVideoUrl (Some (resp_url data))) then
        updateBadge (setTabDurations (map_delete tabId (tabDurations (coord w))) w)
      else
        updateBadge (setTabDurations (map_set tabId (recordOf tabId data) (tabDurations (coord w))) w)
  end.

Definition onGetPopupData (w : World) : PopupData :=
  let tabs := map_values (tabDurations (coord w)) in
  let totalRemaining := calculateTotalRemaining (tabDurations (coord w)) in
  {| tabs := tabs;
     totalDurationSeconds := totalRemaining;
     totalFormatted := formatDuration totalRemaining;
     popup_displayEnabled := displayEnabled (coord w) |}.

Definition onToggleDisplay (w : World) : bool * World :=
  let w := setDisplayEnabled (negb (displayEnabled (coord w))) w in
  let w := onBrowser (storageSetDisplayEnabled (displayEnabled (coord w))) w in
  let w := updateBadge w in
  (displayEnabled (coord w), w).

(** *** The event loop

    Each event is one turn of the worker's event loop.  A pull is two
    turns: the request ([requestDurationFromTab], which puts it in flight)
    and its settling ([PullSettled], any time later).  The probing and
    re-injection of content scripts at start-up touches none of the state
    below and has no event. *)

Inductive Event :=
| WorkerStarted                                   (* the service worker (re)starts *)
| StorageLoaded                                   (* storage.local.get answers *)
| ScanQueried (tabs : list Tab)                   (* tabs.query of the scan answers *)
| ScanSettled                                     (* all pulls of the scan have settled *)
| TabRemoved (tabId : Z)
| TabUpdated (tabId : Z) (statusComplete : bool) (tabUrl : option string)
| HistoryStateUpdated (frameId tabId : Z) (detailsUrl : string)
| ReportDuration (senderTab : option Z) (data : DurationResponse)
| GetPopupData
| ToggleDisplay
| TimerFired (handle : nat)
| PullSettled (index : nat) (o : PullOutcome).

Definition initialCoordinator : Coordinator :=
  {| tabDurations := []; displayEnabled := true; persistTimeout := None |}.

(** A start of the worker: a new closure; timeouts and pending requests of
    an earlier run are gone, the badge and the storage remain. *)
Definition onWorkerStarted (w : World) : World :=
  {| coord := initialCoordinator;
     browser := setInflight [] (setTimers [] (browser w)) |}.

Fixpoint removeNth {A} (n : nat) (l : list A) : list A :=
  match n, l with
  | O, _ :: l' => l'
  | S n', x :: l' => x :: removeNth n' l'
  | _, [] => []
  end.

Definition onTimerFired (handle : nat) (w : World) : World :=
  match find (fun t => Nat.eqb (fst t) handle) (timers (browser w)) with
  | None => w
  | Some (_, task) =>
      let w := onBrowser (fun b => setTimers (filter (fun t => negb (Nat.eqb (fst t) handle)) (timers b)) b) w in
      match task with
      | PersistTask => persistNow w
      | PullTask tabId retries => requestDurationFromTab tabId retries w
      end
  end.

Definition onPullSettled (index : nat) (o : PullOutcome) (w : World) : World :=
  match nth_error (inflight (browser w)) index with
  | None => w
  | Some (tabId, retries) =>
      let w := onBrowser (fun b => setInflight (removeNth index (inflight b)) b) w in
      requestDurationFromTab_resume tabId retries o w
  end.

Definition step (e : Event) (w : World) : World :=
  match e with
  | WorkerStarted => onWorkerStarted w
  | StorageLoaded => onStorageLoaded w
  | ScanQueried tabs => scanAllYouTubeTabs_queried tabs w
  | ScanSettled => updateBadge w
  | TabRemoved tabId => onRemoved tabId w
  | TabUpdated tabId c u => onUpdated tabId c u w
  | HistoryStateUpdated f tabId u => onHistoryStateUpdated f tabId u w
  | ReportDuration s data => onReportDuration s data w
  | GetPopupData => w
  | ToggleDisplay => snd (onToggleDisplay w)
  | TimerFired h => onTimerFired h w
  | PullSettled i o => onPullSettled i o w
  end.

Definition run (es : list Event) (w : World) : World :=
  fold_left (fun w e => step e w) es w.

(** The browser at installation: no badge, empty storage. *)
Definition freshBrowser : Browser :=
  {| badgeText := Some EmptyString;
     badgeBackgroundColor := None;
     storedDisplayEnabled := None;
     storedTabDurationsCache := None;
     timers := [];
     nextTimer := O;
     inflight := [];
     calls := [] |}.

(** A worker starting in a browser [b]. *)
Definition startWorld (b : Browser) : World :=
  {| coord := initialCoordinator; browser := b |}.

Definition freshWorld : World := startWorld freshBrowser.

(** The states the extension can come to from [w0], by any sequence of
    events. *)
Inductive reachableFrom (w0 : World) : World -> Prop :=
| reach_start : reachableFrom w0 w0
| reach_step : forall e w, reachableFrom w0 w -> reachableFrom w0 (step e w).

(** The states the extension can be in, from installation on. *)
Definition reachable : World -> Prop := reachableFrom freshWorld.

(** The calls made since an earlier state. *)
Definition persistTimersSet (cs : list Call) : nat :=
  List.length (filter (fun c => match c with SetTimeout _ PersistTask _ => true | _ => false end) cs).

Definition cacheWrites (cs : list Call) : nat :=
  List.length (filter (fun c => match c with StorageSetCache _ => true | _ => false end) cs).

(** Whether the handler of [e], run in [w], changes the mapping or the
    preference and repaints (it reaches [updateBadge]). *)
Definition mutates (e : Event) (w : World) : bool :=
  let m := tabDurations (coord w) in
  match e with
  | StorageLoaded | ScanSettled | ToggleDisplay => true
  | ReportDuration (Some _) _ => true
  | TabRemoved tabId => map_has tabId m
  | TabUpdated tabId c u =>
      c && negb (match u with Some s => isEmpty s | None => true end)
        && negb (isYouTubeVideoUrl u) && map_has tabId m
  | HistoryStateUpdated f tabId u =>
      (f =? 0) && negb (isYouTubeVideoUrl (Some u)) && map_has tabId m
  | PullSettled i (Responded _) =>
      match nth_error (inflight (browser w)) i with Some _ => true | None => false end
  | _ => false
  end.

(** An event that leaves a running throttle window running: the worker is
    not restarted and the timeout of the window does not fire. *)
Definition inWindow (e : Event) (w : World) : bool :=
  match e with
  | WorkerStarted => false
  | TimerFired h =>
      match persistTimeout (coord w) with
      | Some h' => negb (Nat.eqb h h')
      | None => true
      end
  | _ => true
  end.

Fixpoint withinWindow (es : list Event) (w : World) : bool :=
  match es with
  | [] => true
  | e :: es' => inWindow e w && withinWindow es' (step e w)
  end.

Fixpoint mutations (es : list Event) (w : World) : nat :=
  match es with
  | [] => O
  | e :: es' => ((if mutates e w then 1 else 0) + mutations es' (step e w))%nat
  end.

End Background.

(** ** The aggregate as the specification words it *)

Module Stated.
Import JS Types Background.

(** "treat missing/zero rate as 1". *)
Definition statedRate (info : TabDurationInfo) : number :=
  match playbackRate info with
  | None => 1%float
  | Some r => if is_zero r then 1%float else r
  end.

(** [max(0, durationSeconds - currentTimeSeconds) / playbackRate]. *)
Definition statedRemaining (info : TabDurationInfo) : number :=
  (Math_max 0 (durationSeconds info - currentTimeSeconds info) / statedRate info)%float.

(** "sum, over records with isLoading = false, of ...; skip non-finite or
    negative results", in the order of the mapping. *)
Definition statedAdd (total : number) (info : TabDurationInfo) : number :=
  if isLoading info then total
  else
    let r := statedRemaining info in
    if negb (isFinite r) || lt r 0 then total else (total + r)%float.

Definition statedTotal (m : TabMap) : number :=
  fold_left statedAdd (map_values m) 0%float.

(** What a structured source (strategies 1 and 2) yields: its length field,
    read without raising, truthy, with a finite and positive number. *)
Definition yieldOfField (f : Content.access Content.loose) : option number :=
  match f with
  | Content.Got l =>
      if Content.toBoolean l then
        match Content.toNumber l with
        | Content.Got n => if Content.usable n then Some n else None
        | Content.Threw => None
        end
      else None
  | Content.Threw => None
  end.

(** "no strategy yields a positive finite duration". *)
Definition noStrategyYields (p : Content.Page) : Prop :=
  yieldOfField (Content.flexyLengthSeconds p) = None /\
  yieldOfField (Content.initialLengthSeconds p) = None /\
  Content.scanScripts (Content.scripts p) = None.

(** The same sum over the records that are neither loading nor live. *)
Definition isLive (info : TabDurationInfo) : bool :=
  match isLiveStream info with Some true => true | _ => false end.

Definition statedTotalNonLive (m : TabMap) : number :=
  statedTotal (filter (fun e => negb (isLive (snd e))) m).



(** A record whose rate, if it has one, is not negative (and so not NaN). *)
Definition rateOk (info : TabDurationInfo) : bool :=
  match playbackRate info with
  | None => true
  | Some r => (0 <=? r)%float
  end.

End Stated.

(** ** Predicates used in the proofs *)

Module Inv.
Import JS Types Background.

(** A number that is not negative: [+0], a positive number, [+Infinity],
    or NaN. *)
Definition nonneg (x : number) : Prop :=
  match Prim2SF x with
  | S754_zero s | S754_infinity s | S754_finite s _ _ => s = false
  | S754_nan => True
  end.

(** Timeouts that are consistent: handles are fresh and distinct, and the
    timeout of [schedulePersist] is pending exactly when [persistTimeout]
    holds its handle, set with the delay of the window. *)
Record timersOk' (pt : option nat) (ts : list (nat * Task)) (nx : nat) (cs : list Call) : Prop := {
  handles_fresh : forall h t, In (h, t) ts -> (h < nx)%nat;
  handles_distinct : NoDup (map fst ts);
  persist_known : forall h, In (h, PersistTask) ts -> pt = Some h;
  persist_pending : forall h, pt = Some h -> In (h, PersistTask) ts;
  persist_delay : forall h, pt = Some h -> In (SetTimeout h PersistTask 2000) cs
}.

Definition timersOk (w : World) : Prop :=
  timersOk' (persistTimeout (coord w)) (timers (browser w))
            (nextTimer (browser w)) (calls (browser w)).

(** What an event inside a throttle window does to the persistence: it
    writes nothing; a timeout that is pending stays the one pending and no
    other is set; when none is pending, a mutation sets exactly one and
    anything else sets none. *)
Definition windowStep (mutation : bool) (w w' : World) : Prop :=
  cacheWrites (calls (browser w')) = cacheWrites (calls (browser w)) /\
  match persistTimeout (coord w) with
  | Some h =>
      persistTimeout (coord w') = Some h /\
      persistTimersSet (calls (browser w')) = persistTimersSet (calls (browser w))
  | None =>
      if mutation then
        (exists h, persistTimeout (coord w') = Some h) /\
        persistTimersSet (calls (browser w')) = S (persistTimersSet (calls (browser w)))
      else
        persistTimeout (coord w') = None /\
        persistTimersSet (calls (browser w')) = persistTimersSet (calls (browser w))
  end.





End Inv.

(** ** Sample data *)

Module Samples.
Import JS Str Content Types Background.

Definition watchUrl : string := "https://www.youtube.com/watch?v=dQw4w9WgXcQ".

Definition sampleInfo (id : Z) (d c : number) (rate : option number)
    (loading : bool) (live : option bool) : TabDurationInfo :=
  {| tabId := id; url := watchUrl; title := "Video";
     durationSeconds := d; currentTimeSeconds := c;
     playbackRate := rate; isLoading := loading; isLiveStream := live;
     videoType := Types.video |}.

(** A live stream with a finite duration, one hour long, at its start. *)
Definition liveInfo : TabDurationInfo :=
  sampleInfo 7 3600 0 None false (Some true).

(** The page of such a stream: the page data mark it live, the media element
    reports one hour. *)
Definition livePage : Page :=
  {| href := watchUrl;
     documentTitle := "Stream - YouTube";
     activeRenderer := None;
     reelVideos := [];
     moviePlayerVideo := Some {| duration := 3600; currentTime := 0; paused := false |};
     html5MainVideo := None;
     anyVideo := None;
     flexyLengthSeconds := Got {| toBoolean := true; toNumber := Got 0%float |};
     flexyIsLive := Got true;
     initialLengthSeconds := Got {| toBoolean := false; toNumber := Got nan |};
     initialIsLive := Got false;
     scripts := [];
     watchMetadataHeading := None;
     infoHeading := None;
     activeReelHeading := None |}.

Definition liveResponse : DurationResponse :=
  {| resp_durationSeconds := 3600;
     resp_currentTimeSeconds := 0;
     resp_playbackRate := None;
     resp_isLiveStream := true;
     resp_isLoading := false;
     resp_videoType := Types.video;
     resp_url := watchUrl;
     resp_title := "Stream" |}.

(** A page on which nothing is known yet: an element without metadata, page
    data that raise or are empty. *)
Definition blankPage : Page :=
  {| href := watchUrl;
     documentTitle := "YouTube";
     activeRenderer := None;
     reelVideos := [];
     moviePlayerVideo := None;
     html5MainVideo := None;
     anyVideo := Some {| duration := nan; currentTime := 3; paused := true |};
     flexyLengthSeconds := Threw;
     flexyIsLive := Threw;
     initialLengthSeconds := Got {| toBoolean := true; toNumber := Threw |};
     initialIsLive := Threw;
     scripts := ["var lengthSeconds = 0;"];
     watchMetadataHeading := None;
     infoHeading := None;
     activeReelHeading := None |}.

(** A record with a negative rate, ten seconds past its end. *)
Definition rewoundInfo : TabDurationInfo :=
  sampleInfo 3 0 10 (Some (-2)%float) false None.

(** A browser whose storage holds a cache written earlier, with a null
    entry and an entry without a numeric tab id in it. *)
Definition restoredBrowser : Browser :=
  {| badgeText := Some EmptyString;
     badgeBackgroundColor := None;
     storedDisplayEnabled := Some false;
     storedTabDurationsCache := Some [ItemFalsy; ItemUnkeyed; ItemInfo liveInfo];
     timers := [];
     nextTimer := O;
     inflight := [];
     calls := [] |}.

Definition negativeRateMap : TabMap := [(3, rewoundInfo)].



(** Two tabs at 1800/600 and 600/600, the second at double speed, and a
    third still loading. *)
Definition scenarioMap : TabMap :=
  [ (1, sampleInfo 1 1800 600 None false None);
    (2, sampleInfo 2 600 600 (Some 2%float) false None);
    (4, sampleInfo 4 0 0 None true None) ].

Definition homeResponse : DurationResponse :=
  {| resp_durationSeconds := 0;
     resp_currentTimeSeconds := 0;
     resp_playbackRate := None;
     resp_isLiveStream := false;
     resp_isLoading := true;
     resp_videoType := Types.video;
     resp_url := "https://www.youtube.com/feed/subscriptions";
     resp_title := "Subscriptions" |}.

Definition videoResponse : DurationResponse :=
  {| resp_durationSeconds := 1800;
     resp_currentTimeSeconds := 600;
     resp_playbackRate := None;
     resp_isLiveStream := false;
     resp_isLoading := false;
     resp_videoType := Types.video;
     resp_url := watchUrl;
     resp_title := "Video" |}.

(** Three mutations in a row: two pushes and the closing of a tab. *)
Definition burst : list Event :=
  [ ReportDuration (Some 5) videoResponse;
    ReportDuration (Some 6) videoResponse;
    TabRemoved 5 ].

End Samples.

(** ** The popup: one row per tab *)

Module Popup.
Import JS Types TimeFormat.

(** What [createTabRow] puts in the row element. *)
Record Row := {
  row_title : string;                  (* title.textContent *)
  row_tooltip : string;                (* title.title *)
  row_shortBadge : bool;               (* the "Short" badge is appended *)
  row_duration : option string;        (* duration.textContent *)
  row_durationClass : option string    (* the class added to the duration *)
}.

(** [if (tab.isLiveStream)] on a property that may be absent. *)
Definition liveMark (tab : TabDurationInfo) : bool :=
  match isLiveStream tab with Some b => b | None => false end.

Definition createTabRow (tab : TabDurationInfo) : Row :=
  let titleText := if Str.isEmpty (title tab) then "Untitled" else title tab in
  let short := match videoType tab with short => true | video => false end in
  if liveMark tab then
    {| row_title := titleText; row_tooltip := url tab; row_shortBadge := short;
       row_duration := Some "LIVE"; row_durationClass := Some "live" |}
  else if isLoading tab then
    {| row_title := titleText; row_tooltip := url tab; row_shortBadge := short;
       row_duration := Some "Loading..."; row_durationClass := Some "loading" |}
  else
    let remaining := Math_max 0 (durationSeconds tab - currentTimeSeconds tab)%float in
    {| row_title := titleText; row_tooltip := url tab; row_shortBadge := short;
       row_duration := option_map (fun t => t ++ " left") (formatTimestamp remaining);
       row_durationClass := None |}.

End Popup.

(** ** Further predicates used in the proofs *)

Module Facts.
Import JS Types Content Background Stated.

(** The text [updateBadge] paints for a coordinator. *)
Definition badgeOf (c : Coordinator) : option string :=
  if displayEnabled c then
    let total := calculateTotalRemaining (tabDurations c) in
    if gt total 0 then TimeFormat.formatDuration total else Some EmptyString
  else Some EmptyString.

(** Every pull, scheduled or in flight, has between 0 and 2 retries left. *)
Definition retriesOk (w : World) : Prop :=
  (forall h k r, In (h, PullTask k r) (timers (browser w)) -> 0 <= r <= 2) /\
  (forall k r, In (k, r) (inflight (browser w)) -> 0 <= r <= 2).

(** A mapping as a [Map] of records filed under their own tab id: no key
    twice, every record under its [tabId]. *)
Definition wellKeyed (m : TabMap) : Prop :=
  NoDup (map fst m) /\ forall k v, In (k, v) m -> tabId v = k.

(** What the three strategies yield, the first that yields winning. *)
Definition firstYield (p : Page) : option number :=
  orElse (yieldOfField (flexyLengthSeconds p))
         (orElse (yieldOfField (initialLengthSeconds p)) (scanScripts (scripts p))).

(** A number that is zero or more, [+Infinity] included: not negative, not
    [-0], not NaN. *)
Definition positiveOrZero (x : number) : Prop :=
  match Prim2SF x with
  | S754_zero false | S754_infinity false | S754_finite false _ _ => True
  | _ => False
  end.

(** The text of a length field as the page embeds it: the quoted key, a
    colon with optional white space around it, the quoted digits. *)
Definition lengthFieldText (ws1 ws2 digits : string) : string :=
  String Str.dquote "lengthSeconds" ++ String Str.dquote ws1 ++ ":" ++ ws2
    ++ String Str.dquote digits ++ String Str.dquote EmptyString.

Definition allChars (f : ascii -> bool) (s : string) : bool :=
  forallb f (list_ascii_of_string s).

(** The last record stored under the tab id [k] in a cache array, entries
    that are no records or have no numeric tab id being passed over. *)
Definition lastStored (k : Z) (items : list CacheItem) : option TabDurationInfo :=
  fold_left (fun acc item =>
               match item with
               | ItemInfo info => if tabId info =? k then Some info else acc
               | _ => acc
               end) items None.

End Facts.

(** ** The content script: reporting and waiting for the page *)

Module ContentScript.
Import JS Str Types Content.

#[local] Notation "x <~ e ;; k" := (rbind e (fun x => k))
  (at level 61, e at next level, right associativity).

(** The variables of [main] and, of the page context, what the script
    creates in it: intervals, mutation observers, the [onReady] closures it
    attaches to a video element (one closure serves both events), timeouts
    to [waitForVideoAndReport], and the reports it has pushed. *)
Record Script := {
  currentUrl : string;
  domObserver : option nat;
  reportInterval : option nat;
  intervals : list nat;              (* intervals that are set and not cleared *)
  observers : list nat;              (* observers that are connected *)
  listeners : list nat;              (* closures attached and not removed *)
  pendingWaits : nat;                (* setTimeout(waitForVideoAndReport, 500) not fired yet *)
  nextHandle : nat;
  sent : list DurationResponse       (* sendMessage("reportDuration", _), latest first *)
}.

Definition withoutHandle (h : nat) (l : list nat) : list nat :=
  filter (fun x => negb (Nat.eqb x h)) l.

Definition stopPeriodicReporting (s : Script) : Script :=
  match reportInterval s with
  | Some h =>
      {| currentUrl := currentUrl s;
         domObserver := domObserver s;
         reportInterval := None;
         intervals := withoutHandle h (intervals s);
         observers := observers s;
         listeners := listeners s;
         pendingWaits := pendingWaits s;
         nextHandle := nextHandle s;
         sent := sent s |}
  | None => s
  end.

Definition startPeriodicReporting (s : Script) : Script :=
  let s := stopPeriodicReporting s in
  {| currentUrl := currentUrl s;
     domObserver := domObserver s;
     reportInterval := Some (nextHandle s);
     intervals := (intervals s ++ [nextHandle s])%list;
     observers := observers s;
     listeners := listeners s;
     pendingWaits := pendingWaits s;
     nextHandle := S (nextHandle s);
     sent := sent s |}.

(** [sendMessage("reportDuration", data).catch(() => {})]. *)
Definition sendReport (data : DurationResponse) (s : Script) : Script :=
  {| currentUrl := currentUrl s;
     domObserver := domObserver s;
     reportInterval := reportInterval s;
     intervals := intervals s;
     observers := observers s;
     listeners := listeners s;
     pendingWaits := pendingWaits s;
     nextHandle := nextHandle s;
     sent := data :: sent s |}.

Definition setCurrentUrl (u : string) (s : Script) : Script :=
  {| currentUrl := u;
     domObserver := domObserver s;
     reportInterval := reportInterval s;
     intervals := intervals s;
     observers := observers s;
     listeners := listeners s;
     pendingWaits := pendingWaits s;
     nextHandle := nextHandle s;
     sent := sent s |}.

Definition setListeners (l : list nat) (s : Script) : Script :=
  {| currentUrl := currentUrl s;
     domObserver := domObserver s;
     reportInterval := reportInterval s;
     intervals := intervals s;
     observers := observers s;
     listeners := l;
     pendingWaits := pendingWaits s;
     nextHandle := nextHandle s;
     sent := sent s |}.

Definition setPendingWaits (n : nat) (s : Script) : Script :=
  {| currentUrl := currentUrl s;
     domObserver := domObserver s;
     reportInterval := reportInterval s;
     intervals := intervals s;
     observers := observers s;
     listeners := listeners s;
     pendingWaits := n;
     nextHandle := nextHandle s;
     sent := sent s |}.

(** [obs.disconnect(); domObserver = null]. *)
Definition disconnectObserver (o : nat) (s : Script) : Script :=
  {| currentUrl := currentUrl s;
     domObserver := None;
     reportInterval := reportInterval s;
     intervals := intervals s;
     observers := withoutHandle o (observers s);
     listeners := listeners s;
     pendingWaits := pendingWaits s;
     nextHandle := nextHandle s;
     sent := sent s |}.

(** The body of the interval callback. *)
Definition tick (p : Page) (s : Script) : result Script :=
  let s := if String.eqb (href p) (currentUrl s) then s else setCurrentUrl (href p) s in
  data <~ extractDuration p ;;
  if negb (resp_isLoading data) then Ok (sendReport data s) else Ok s.

Definition reportCurrentDuration (p : Page) (s : Script) : result Script :=
  data <~ extractDuration p ;;
  if negb (resp_isLoading data) then Ok (startPeriodicReporting (sendReport data s))
  else Ok s.

Definition setupVideoListeners (p : Page) (s : Script) : result Script :=
  match getMainVideo p with
  | None => Ok s
  | Some v =>
      if isFinite (duration v) && gt (duration v) 0 then reportCurrentDuration p s
      else
        Ok {| currentUrl := currentUrl s;
              domObserver := domObserver s;
              reportInterval := reportInterval s;
              intervals := intervals s;
              observers := observers s;
              listeners := (listeners s ++ [nextHandle s])%list;
              pendingWaits := pendingWaits s;
              nextHandle := S (nextHandle s);
              sent := sent s |}
  end.

(** The closure [onReady] of listener [l], run when its element signals
    metadata; [d] is the duration that element has then. *)
Definition onReady (l : nat) (d : number) (p : Page) (s : Script) : result Script :=
  if isFinite d && gt d 0 then
    reportCurrentDuration p (setListeners (withoutHandle l (listeners s)) s)
  else Ok s.

Definition observeForData (s : Script) : Script :=
  let connected :=
    match domObserver s with
    | Some o => withoutHandle o (observers s)
    | None => observers s
    end in
  {| currentUrl := currentUrl s;
     domObserver := Some (nextHandle s);
     reportInterval := reportInterval s;
     intervals := intervals s;
     observers := (connected ++ [nextHandle s])%list;
     listeners := listeners s;
     pendingWaits := pendingWaits s;
     nextHandle := S (nextHandle s);
     sent := sent s |}.

Definition waitForVideoAndReport (p : Page) (s : Script) : result Script :=
  pageDataDuration <~ getPageDataDuration p ;;
  match pageDataDuration with
  | Some _ =>
      s1 <~ reportCurrentDuration p s ;;
      setupVideoListeners p s1
  | None =>
      match getMainVideo p with
      | Some v =>
          if isFinite (duration v) && gt (duration v) 0 then reportCurrentDuration p s
          else setupVideoListeners p s
      | None => Ok (observeForData s)
      end
  end.

(** The callback of the mutation observer [o]. *)
Definition observerCallback (o : nat) (p : Page) (s : Script) : result Script :=
  pageDataDuration <~ getPageDataDuration p ;;
  match pageDataDuration with
  | Some _ =>
      s1 <~ reportCurrentDuration p (disconnectObserver o s) ;;
      setupVideoListeners p s1
  | None =>
      match getMainVideo p with
      | Some _ => waitForVideoAndReport p (disconnectObserver o s)
      | None => Ok s
      end
  end.

(** The listeners of [yt-navigate-finish] and [popstate]. *)
Definition onNavigate (p : Page) (s : Script) : Script :=
  let newUrl := href p in
  if String.eqb newUrl (currentUrl s) then s
  else
    let s := stopPeriodicReporting (setCurrentUrl newUrl s) in
    setPendingWaits (S (pendingWaits s)) s.

(** [main] up to its end: the state at injection, then the first
    [waitForVideoAndReport]. *)
Definition initialScript (p : Page) : Script :=
  {| currentUrl := href p;
     domObserver := None;
     reportInterval := None;
     intervals := [];
     observers := [];
     listeners := [];
     pendingWaits := O;
     nextHandle := O;
     sent := [] |}.

Definition main (p : Page) : result Script :=
  waitForVideoAndReport p (initialScript p).

(** One turn of the page's event loop; [p] is the page as it is then.  A
    callback runs only while what it belongs to is alive. *)
Inductive Event :=
| NavigateFinish (p : Page)
| PopState (p : Page)
| WaitTimeout (p : Page)
| IntervalTick (h : nat) (p : Page)
| Mutation (o : nat) (p : Page)
| MetadataReady (l : nat) (d : number) (p : Page)
| GetDuration (p : Page).

Definition step (e : Event) (s : Script) : result Script :=
  match e with
  | NavigateFinish p | PopState p => Ok (onNavigate p s)
  | WaitTimeout p =>
      match pendingWaits s with
      | S n => waitForVideoAndReport p (setPendingWaits n s)
      | O => Ok s
      end
  | IntervalTick h p =>
      if existsb (Nat.eqb h) (intervals s) then tick p s else Ok s
  | Mutation o p =>
      if existsb (Nat.eqb o) (observers s) then observerCallback o p s else Ok s
  | MetadataReady l d p =>
      if existsb (Nat.eqb l) (listeners s) then onReady l d p s else Ok s
  | GetDuration p => _ <~ extractDuration p ;; Ok s
  end.

(** The states of a script injected into some page. *)
Inductive reachable : Script -> Prop :=
| reach_main : forall p s, main p = Ok s -> reachable s
| reach_step : forall e s s', reachable s -> step e s = Ok s' -> reachable s'.

Definition optionList (o : option nat) : list nat :=
  match o with Some h => [h] | None => [] end.

(** The script owns what it created: the only live interval is the one in
    [reportInterval], the only connected observer the one in [domObserver],
    and every report it pushed is a resolved one. *)
Record tidy (s : Script) : Prop := {
  one_interval : intervals s = optionList (reportInterval s);
  one_observer : observers s = optionList (domObserver s);
  reports_resolved :
    forall r, In r (sent s) ->
              resp_isLoading r = false /\ usable (resp_durationSeconds r) = true
}.

End ContentScript.

(** ** Sample pages for the content script *)

Module ScriptSamples.
Import JS Str Types Content Samples.

(** The script as [main] leaves it on the live page of the samples. *)
Definition liveScript : ContentScript.Script :=
  match ContentScript.main livePage with
  | Ok s => s
  | Raised => ContentScript.initialScript livePage
  end.

(** The same page after an in-page navigation to another video. *)
Definition nextPage : Page :=
  {| href := "https://www.youtube.com/watch?v=9bZkp7q19f0";
     documentTitle := documentTitle livePage;
     activeRenderer := activeRenderer livePage;
     reelVideos := reelVideos livePage;
     moviePlayerVideo := moviePlayerVideo livePage;
     html5MainVideo := html5MainVideo livePage;
     anyVideo := anyVideo livePage;
     flexyLengthSeconds := flexyLengthSeconds livePage;
     flexyIsLive := flexyIsLive livePage;
     initialLengthSeconds := initialLengthSeconds livePage;
     initialIsLive := initialIsLive livePage;
     scripts := scripts livePage;
     watchMetadataHeading := watchMetadataHeading livePage;
     infoHeading := infoHeading livePage;
     activeReelHeading := activeReelHeading livePage |}.

End ScriptSamples.

(** * Properties *)

Import JS Str TimeFormat Content Types Background Stated Inv Samples.

(** ** The formatters *)

(** C8: [formatDuration(0)] is "0m", [formatDuration(5400)] is "1h30m",
    [formatTimestamp(90)] is "1:30" and [formatTimestamp(3661)] is
    "1:01:01", as stated; [formatDurationLong(0)] however is "0 seconds" and
    not "0 minutes": with no hour and no minute part the seconds part is
    pushed, even when it is zero. *)
Theorem formatters_on_samples :
  formatDuration 0 = Some "0m" /\
  formatDuration 5400 = Some "1h30m" /\
  formatTimestamp 90 = Some "1:30" /\
  formatTimestamp 3661 = Some "1:01:01" /\
  formatDurationLong 0 = Some "0 seconds" /\
  formatDurationLong 0 <> Some "0 minutes".
Proof.
  repeat split; try (vm_compute; reflexivity).
  vm_compute. discriminate.
Qed.

(** ** The mapping *)

Lemma map_get_delete (k : Z) (m : TabMap) : map_get k (map_delete k m) = None.
Proof.
  unfold map_get, map_delete.
  induction m as [|[k' v'] m IH]; simpl; [reflexivity|].
  destruct (k' =? k) eqn:E; simpl; [exact IH|].
  rewrite E. exact IH.
Qed.

Lemma map_get_set (k : Z) (v : TabDurationInfo) (m : TabMap) :
  map_get k (map_set k v m) = Some v.
Proof.
  unfold map_get.
  induction m as [|[k' v'] m IH]; simpl.
  - rewrite Z.eqb_refl. reflexivity.
  - destruct (k' =? k) eqn:E; simpl.
    + rewrite Z.eqb_refl. reflexivity.
    + rewrite E. exact IH.
Qed.

Lemma in_map_delete (k : Z) (m : TabMap) (e : Z * TabDurationInfo) :
  In e (map_delete k m) -> In e m.
Proof.
  unfold map_delete. intros H. apply filter_In in H. tauto.
Qed.

Lemma in_map_set (k : Z) (v : TabDurationInfo) (m : TabMap) (e : Z * TabDurationInfo) :
  In e (map_set k v m) -> e = (k, v) \/ In e m.
Proof.
  induction m as [|[k' v'] m IH]; simpl.
  - intros [H|[]]. left. symmetry. exact H.
  - destruct (k' =? k); simpl.
    + intros [H|H]; [left; symmetry; exact H | right; right; exact H].
    + intros [H|H]; [right; left; exact H | destruct (IH H); tauto].
Qed.

(** ** What the repaint touches *)

Lemma coord_schedulePersist (w : World) :
  tabDurations (coord (schedulePersist w)) = tabDurations (coord w) /\
  displayEnabled (coord (schedulePersist w)) = displayEnabled (coord w).
Proof.
  unfold schedulePersist. destruct (persistTimeout (coord w)); simpl; split; reflexivity.
Qed.

Lemma tabDurations_updateBadge (w : World) :
  tabDurations (coord (updateBadge w)) = tabDurations (coord w).
Proof.
  unfold updateBadge.
  destruct (displayEnabled (coord w)); simpl;
    rewrite (proj1 (coord_schedulePersist _)); reflexivity.
Qed.

(** ** The push handler *)

(** C4: a push from a tab whose reported URL is no tracked video page
    deletes the record of that tab (the tab is absent afterwards, and
    nothing is inserted); a push whose URL is a tracked page upserts the
    record of that tab. *)
Theorem push_deletes_or_upserts (w : World) (tabId : Z) (data : DurationResponse) :
  let before := tabDurations (coord w) in
  let after := tabDurations (coord (step (ReportDuration (Some tabId) data) w)) in
  (isYouTubeVideoUrl (Some (resp_url data)) = false ->
     after = map_delete tabId before /\
     map_get tabId after = None /\
     (forall e, In e after -> In e before)) /\
  (isYouTubeVideoUrl (Some (resp_url data)) = true ->
     after = map_set tabId (recordOf tabId data) before /\
     map_get tabId after = Some (recordOf tabId data)).
Proof.
  cbv zeta. unfold step, onReportDuration. split; intros H; rewrite H; simpl negb; cbv iota.
  - rewrite tabDurations_updateBadge. simpl.
    split; [reflexivity|]. split; [apply map_get_delete|].
    intros e. apply in_map_delete.
  - rewrite tabDurations_updateBadge. simpl.
    split; [reflexivity | apply map_get_set].
Qed.

Lemma push_deletes_or_upserts_witness :
  let w1 := step (ReportDuration (Some 5) videoResponse) freshWorld in
  map_get 5 (tabDurations (coord w1)) = Some (recordOf 5 videoResponse) /\
  map_get 5 (tabDurations (coord (step (ReportDuration (Some 5) homeResponse) w1))) = None.
Proof.
  cbv zeta. split.
  - apply (push_deletes_or_upserts freshWorld 5 videoResponse). reflexivity.
  - apply (push_deletes_or_upserts
             (step (ReportDuration (Some 5) videoResponse) freshWorld) 5 homeResponse).
    reflexivity.
Defined.

(** ** A pull that fails *)

(** C5: when the transport rejects a pull, the state is what it was before:
    the record of the tab, if any, and every other entry are untouched. *)
Theorem pull_failure_keeps_state (w : World) (tabId retries : Z) (index : nat) :
  requestDurationFromTab_resume tabId retries Rejected w = w /\
  coord (step (PullSettled index Rejected) w) = coord w /\
  tabDurations (coord (step (PullSettled index Rejected) w)) = tabDurations (coord w).
Proof.
  split; [reflexivity|].
  unfold step, onPullSettled.
  destruct (nth_error (inflight (browser w)) index) as [[t r]|]; simpl; split; reflexivity.
Qed.

(** ** The toggle *)

(** C7: the toggle flips the flag, stores the new flag at once (a call made
    by the handler itself, before the repaint), returns the new flag and
    repaints; the mapping is untouched, the badge text is empty when the
    flag has become false, and the snapshot of the detail view taken
    afterwards carries the aggregate computed from the mapping. *)
Theorem toggle_flips_persists_repaints (w : World) :
  let ret := fst (onToggleDisplay w) in
  let w' := snd (onToggleDisplay w) in
  let total := calculateTotalRemaining (tabDurations (coord w)) in
  ret = negb (displayEnabled (coord w)) /\
  displayEnabled (coord w') = ret /\
  storedDisplayEnabled (browser w') = Some ret /\
  (exists repaint,
      calls (browser w') = (repaint ++ StorageSetDisplayEnabled ret :: calls (browser w))%list /\
      In (SetBadgeText (badgeText (browser w'))) repaint /\
      cacheWrites repaint = O) /\
  tabDurations (coord w') = tabDurations (coord w) /\
  badgeText (browser w') =
    (if ret then (if gt total 0 then formatDuration total else Some EmptyString)
     else Some EmptyString) /\
  totalDurationSeconds (onGetPopupData w') = total /\
  tabs (onGetPopupData w') = map_values (tabDurations (coord w)).
Proof.
  cbv zeta. unfold onToggleDisplay, onGetPopupData, updateBadge, schedulePersist.
  destruct w as [[m d pt] b]. simpl.
  assert (Hex : forall (pre : list Call) (c : Call) (cs : list Call) (t : option string),
             In (SetBadgeText t) pre -> cacheWrites pre = O ->
             exists repaint, (pre ++ c :: cs)%list = (repaint ++ c :: cs)%list /\
                             In (SetBadgeText t) repaint /\ cacheWrites repaint = O).
  { intros pre c cs t Hin Hw. exists pre. auto. }
  destruct d, pt; simpl;
    (split; [reflexivity|]); (split; [reflexivity|]); (split; [reflexivity|]);
    (split; [|repeat split; reflexivity]).
  - apply (Hex [_]); simpl; auto.
  - apply (Hex [_; _]); simpl; auto.
  - apply (Hex [_; _]); simpl; auto.
  - apply (Hex [_; _; _]); simpl; auto.
Qed.

(** ** Live streams *)

(** C1: the aggregate does not look at the live mark.  The page of a live
    stream whose media element reports a finite duration is extracted as a
    live, non-loading record of one hour; pushed to the coordinator it is
    counted in full (and painted on the badge), where the sum over the
    non-live records is zero.  The same holds of a stored record that
    carries the mark. *)
Theorem live_stream_is_counted :
  let w := step (ReportDuration (Some 7) liveResponse) freshWorld in
  extractDuration livePage = Ok liveResponse /\
  calculateTotalRemaining (tabDurations (coord w)) = 3600%float /\
  badgeText (browser w) = Some "1h0m" /\
  isLive liveInfo = true /\
  calculateTotalRemaining [(7, liveInfo)] = 3600%float /\
  statedTotalNonLive [(7, liveInfo)] = 0%float.
Proof.
  cbv zeta. repeat split; vm_compute; reflexivity.
Qed.

(** ** The extractor *)

Lemma isLiveStream_returns (p : Page) : exists b, Content.isLiveStream p = Ok b.
Proof.
  unfold Content.isLiveStream, tryCatch, read, rbind.
  destruct (flexyIsLive p) as [|[|]]; destruct (initialIsLive p) as [|[|]];
    try (eexists; reflexivity);
    destruct (getMainVideo p); eexists; reflexivity.
Qed.

Lemma getPageDataDuration_returns (p : Page) :
  exists d, getPageDataDuration p = Ok d /\
            (noStrategyYields p -> d = None).
Proof.
  unfold getPageDataDuration, noStrategyYields, yieldOfField, fromLengthField,
    tryCatch, read, rbind.
  destruct (flexyLengthSeconds p) as [|[b1 [|n1]]]; simpl;
    try destruct b1; simpl; try destruct (usable n1); simpl;
    try (eexists; split; [reflexivity | intros (H & _); discriminate H]);
    (destruct (initialLengthSeconds p) as [|[b2 [|n2]]]; simpl;
     try destruct b2; simpl; try destruct (usable n2); simpl;
     try (eexists; split; [reflexivity | intros (_ & H & _); discriminate H]));
    (destruct (scanScripts (scripts p)); simpl;
     eexists; (split; [reflexivity | intros (_ & _ & H); congruence])).
Qed.

(** C3: [extractDuration] returns a record for every page, never raising.
    When the media element reports a finite, positive duration, that is the
    duration of the record, whatever the page data say; when it does not and
    none of the three strategies yields a finite positive duration, the
    record is loading with zero duration and position. *)
Theorem extractDuration_total (p : Page) :
  exists r,
    extractDuration p = Ok r /\
    (forall v, getMainVideo p = Some v ->
               isFinite (duration v) = true -> gt (duration v) 0 = true ->
               resp_durationSeconds r = duration v /\ resp_isLoading r = false) /\
    (videoDuration (getMainVideo p) = None -> noStrategyYields p ->
     resp_isLoading r = true /\
     resp_durationSeconds r = 0%float /\
     resp_currentTimeSeconds r = 0%float).
Proof.
  unfold extractDuration.
  destruct (isLiveStream_returns p) as [live Hlive]. rewrite Hlive. simpl rbind.
  destruct (videoDuration (getMainVideo p)) as [d|] eqn:Hv.
  - eexists. split; [reflexivity|]. split.
    + intros v Hm Hf Hg. simpl. unfold videoDuration in Hv.
      rewrite Hm, Hf, Hg in Hv. simpl in Hv. inversion Hv. split; reflexivity.
    + intros H. discriminate H.
  - destruct (getPageDataDuration_returns p) as [pd [Hpd Hnone]]. rewrite Hpd. simpl rbind.
    destruct pd as [d|].
    + eexists. split; [reflexivity|]. split.
      * intros v Hm Hf Hg. unfold videoDuration in Hv.
        rewrite Hm, Hf, Hg in Hv. discriminate Hv.
      * intros _ Hno. discriminate (Hnone Hno).
    + eexists. split; [reflexivity|]. split.
      * intros v Hm Hf Hg. unfold videoDuration in Hv.
        rewrite Hm, Hf, Hg in Hv. discriminate Hv.
      * intros _ _. simpl. repeat split; reflexivity.
Qed.

Lemma extractDuration_total_witness :
  (exists r, extractDuration livePage = Ok r /\
             resp_durationSeconds r = 3600%float /\ resp_isLoading r = false) /\
  (exists r, extractDuration blankPage = Ok r /\
             resp_isLoading r = true /\
             resp_durationSeconds r = 0%float /\
             resp_currentTimeSeconds r = 0%float).
Proof.
  split.
  - destruct (extractDuration_total livePage) as (r & Hr & Hvideo & _).
    exists r. split; [exact Hr|].
    apply (Hvideo {| duration := 3600; currentTime := 0; paused := false |});
      reflexivity.
  - destruct (extractDuration_total blankPage) as (r & Hr & _ & Hblank).
    exists r. split; [exact Hr|].
    apply Hblank; [reflexivity|].
    repeat split; reflexivity.
Defined.

(** ** What an event can do to the mapping and to the stored cache *)

Ltac break_match :=
  match goal with
  | |- context [match ?x with _ => _ end] => destruct x eqn:?
  | |- context [if ?x then _ else _] => destruct x eqn:?
  end.

Lemma scan_pulls_coord (ids : list Z) (w : World) :
  coord (fold_left (fun w i => requestDurationFromTab i 2 w) ids w) = coord w.
Proof.
  revert w. induction ids as [|i ids IH]; intros w; simpl; [reflexivity|].
  rewrite IH. reflexivity.
Qed.

Lemma scan_pulls_storage (ids : list Z) (w : World) :
  storedTabDurationsCache (browser (fold_left (fun w i => requestDurationFromTab i 2 w) ids w))
  = storedTabDurationsCache (browser w).
Proof.
  revert w. induction ids as [|i ids IH]; intros w; simpl; [reflexivity|].
  rewrite IH. reflexivity.
Qed.

Lemma in_restoreCache (items : list CacheItem) (m : TabMap) (k : Z) (v : TabDurationInfo) :
  In (k, v) (restoreCache items m) ->
  In (k, v) m \/ (In (ItemInfo v) items /\ k = tabId v).
Proof.
  unfold restoreCache. revert m.
  induction items as [|item items IH]; intros m H; simpl in *; [left; exact H|].
  destruct (IH _ H) as [Hm | [Hi Hk]]; [| right; split; [right|]; assumption].
  destruct item as [| |info]; try (left; exact Hm).
  destruct (in_map_set _ _ _ _ Hm) as [E | Hin]; [|left; exact Hin].
  inversion E; subst. right. split; [left|]; reflexivity.
Qed.

(** An entry of the mapping after an event was there before, or was built
    by a handler from a message for its key, or was restored from the
    stored cache under its own [tabId]. *)
Lemma step_entries (e : Event) (w : World) (k : Z) (v : TabDurationInfo) :
  In (k, v) (tabDurations (coord (step e w))) ->
  In (k, v) (tabDurations (coord w)) \/
  (exists data, v = recordOf k data) \/
  (exists items, storedTabDurationsCache (browser w) = Some items /\
                 In (ItemInfo v) items /\ k = tabId v).
Proof.
  destruct e; unfold step.
  - simpl. intros [].
  - unfold onStorageLoaded. rewrite tabDurations_updateBadge.
    destruct (storedDisplayEnabled (browser w));
      (destruct (storedTabDurationsCache (browser _)) as [items|] eqn:Hs; simpl;
       [ intros H; apply in_restoreCache in H; destruct H as [H|[H1 H2]];
         [left; exact H | right; right; exists items; simpl in Hs; auto]
       | auto ]).
  - unfold scanAllYouTubeTabs_queried. rewrite scan_pulls_coord. simpl.
    intros H. apply filter_In in H. left. tauto.
  - rewrite tabDurations_updateBadge. auto.
  - unfold onRemoved. break_match; [|auto].
    rewrite tabDurations_updateBadge. simpl. intros H. left. eapply in_map_delete; eauto.
  - unfold onUpdated, laterPull. repeat break_match; simpl; auto.
    rewrite tabDurations_updateBadge. simpl. intros H. left. eapply in_map_delete; eauto.
  - unfold onHistoryStateUpdated, laterPull. repeat break_match; simpl; auto.
    rewrite tabDurations_updateBadge. simpl. intros H. left. eapply in_map_delete; eauto.
  - unfold onReportDuration. repeat break_match; auto;
      rewrite tabDurations_updateBadge; simpl; intros H.
    + left. eapply in_map_delete; eauto.
    + apply in_map_set in H. destruct H as [H|H]; [|auto].
      inversion H; subst. right. left. eexists. reflexivity.
  - auto.
  - unfold onToggleDisplay. simpl. rewrite tabDurations_updateBadge. simpl. auto.
  - unfold onTimerFired, persistNow, requestDurationFromTab.
    repeat break_match; simpl; auto.
  - unfold onPullSettled, requestDurationFromTab_resume.
    repeat break_match; simpl; auto;
      try rewrite tabDurations_updateBadge; simpl; intros H;
      apply in_map_set in H; (destruct H as [H|H]; [|auto]);
      inversion H; subst; right; left; eexists; reflexivity.
Qed.

Lemma storage_updateBadge (w : World) :
  storedTabDurationsCache (browser (updateBadge w)) = storedTabDurationsCache (browser w).
Proof.
  unfold updateBadge, schedulePersist.
  destruct w as [[m d pt] b]. destruct d, pt; reflexivity.
Qed.

(** The stored cache after an event is what it was, or the values of the
    mapping at that moment. *)
Lemma step_storage (e : Event) (w : World) :
  storedTabDurationsCache (browser (step e w)) = storedTabDurationsCache (browser w) \/
  storedTabDurationsCache (browser (step e w))
  = Some (map ItemInfo (map_values (tabDurations (coord w)))).
Proof.
  destruct e; unfold step.
  - left. reflexivity.
  - left. unfold onStorageLoaded. rewrite storage_updateBadge.
    repeat break_match; reflexivity.
  - left. unfold scanAllYouTubeTabs_queried. rewrite scan_pulls_storage. reflexivity.
  - left. apply storage_updateBadge.
  - left. unfold onRemoved. break_match; [rewrite storage_updateBadge|]; reflexivity.
  - left. unfold onUpdated, laterPull.
    repeat break_match; try rewrite storage_updateBadge; reflexivity.
  - left. unfold onHistoryStateUpdated, laterPull.
    repeat break_match; try rewrite storage_updateBadge; reflexivity.
  - left. unfold onReportDuration.
    repeat break_match; try rewrite storage_updateBadge; reflexivity.
  - left. reflexivity.
  - left. unfold onToggleDisplay. simpl. rewrite storage_updateBadge. reflexivity.
  - unfold onTimerFired, persistNow, requestDurationFromTab.
    repeat break_match; simpl; auto.
  - left. unfold onPullSettled, requestDurationFromTab_resume.
    repeat break_match; simpl; try rewrite storage_updateBadge; reflexivity.
Qed.

(** ** Records are stored under their own tab id *)

(** C10: in every state the worker can come to, whatever the storage held
    when it started, every entry of the mapping has the key as the [tabId]
    of its record. *)
Theorem entries_keyed_by_tabId (b : Browser) (w : World) :
  reachableFrom (startWorld b) w ->
  forall k v, In (k, v) (tabDurations (coord w)) -> tabId v = k.
Proof.
  induction 1 as [|e w Hr IH]; intros k v Hin.
  - destruct Hin.
  - destruct (step_entries _ _ _ _ Hin) as [H | [[data H] | (items & _ & _ & H)]].
    + apply IH. exact H.
    + subst v. reflexivity.
    + symmetry. exact H.
Qed.

Lemma entries_keyed_by_tabId_witness : tabId liveInfo = 7.
Proof.
  apply (entries_keyed_by_tabId restoredBrowser
           (step StorageLoaded (startWorld restoredBrowser))).
  - apply reach_step, reach_start.
  - simpl. left. reflexivity.
Defined.

(** ** Facts on binary64 numbers *)

Lemma Prim2SF_zero : Prim2SF 0 = S754_zero false.
Proof. reflexivity. Qed.


Lemma Prim2SF_infinity : Prim2SF infinity = S754_infinity false.
Proof. reflexivity. Qed.

Lemma SFcompare_refl_finite (s : bool) (m : positive) (e : Z) :
  SFcompare (S754_finite s m e) (S754_finite s m e) = Some Eq.
Proof.
  simpl. rewrite Z.compare_refl, Pos.compare_cont_refl. destruct s; reflexivity.
Qed.

Lemma is_nan_spec (x : float) :
  is_nan x = match Prim2SF x with S754_nan => true | _ => false end.
Proof.
  unfold is_nan. rewrite eqb_spec. unfold SFeqb.
  destruct (Prim2SF x) as [s|s| |s m e]; try (destruct s; reflexivity); try reflexivity.
  rewrite SFcompare_refl_finite. reflexivity.
Qed.

Lemma is_zero_spec (x : float) :
  is_zero x = match Prim2SF x with S754_zero _ => true | _ => false end.
Proof.
  unfold is_zero. rewrite eqb_spec. change (Prim2SF zero) with (S754_zero false).
  unfold SFeqb. destruct (Prim2SF x) as [s|s| |s m e]; try destruct s; reflexivity.
Qed.

Lemma is_infinity_spec (x : float) :
  is_infinity x = match Prim2SF x with S754_infinity _ => true | _ => false end.
Proof.
  unfold is_infinity. rewrite eqb_spec, abs_spec, Prim2SF_infinity.
  unfold SFeqb. destruct (Prim2SF x) as [s|s| |s m e]; reflexivity.
Qed.

Lemma isFinite_spec (x : float) :
  isFinite x = match Prim2SF x with
               | S754_zero _ | S754_finite _ _ _ => true
               | _ => false
               end.
Proof.
  unfold isFinite. rewrite is_nan_spec, is_infinity_spec.
  destruct (Prim2SF x); reflexivity.
Qed.

Lemma gt0_spec (x : float) :
  gt x 0 = match Prim2SF x with
           | S754_finite false _ _ | S754_infinity false => true
           | _ => false
           end.
Proof.
  unfold gt. rewrite ltb_spec, Prim2SF_zero. unfold SFltb.
  destruct (Prim2SF x) as [s|s| |s m e]; try destruct s; reflexivity.
Qed.

Lemma lt0_spec (x : float) :
  lt x 0 = match Prim2SF x with
           | S754_finite true _ _ | S754_infinity true => true
           | _ => false
           end.
Proof.
  unfold lt. rewrite ltb_spec, Prim2SF_zero. unfold SFltb.
  destruct (Prim2SF x) as [s|s| |s m e]; try destruct s; reflexivity.
Qed.

Lemma leb0_spec (x : float) :
  (0 <=? x)%float = match Prim2SF x with
                    | S754_zero _ | S754_finite false _ _ | S754_infinity false => true
                    | _ => false
                    end.
Proof.
  rewrite leb_spec, Prim2SF_zero. unfold SFleb.
  destruct (Prim2SF x) as [s|s| |s m e]; try destruct s; reflexivity.
Qed.






(** ** Records and the playback rate *)











(** ** The aggregate and the stated sum *)

Lemma Math_max_zero (x : float) :
  Math_max 0 x = if is_nan x then nan else if gt x 0 then x else 0%float.
Proof.
  unfold Math_max, gt. change (is_nan 0) with false. simpl orb.
  destruct (is_nan x); [reflexivity|].
  destruct (0 <? x)%float; [reflexivity|].
  change (get_sign 0) with false. destruct (x <? 0)%float; reflexivity.
Qed.

Lemma binary_round_aux_sign (s : bool) (mx ex : Z) (lx : location) :
  match binary_round_aux prec emax s mx ex lx with
  | S754_zero s' | S754_infinity s' | S754_finite s' _ _ => s' = s
  | S754_nan => True
  end.
Proof.
  unfold binary_round_aux.
  destruct (shr_fexp prec emax mx ex lx) as [mrs' e'].
  destruct (shr_fexp prec emax _ e' loc_Exact) as [mrs'' e''].
  destruct (shr_m mrs''); [reflexivity | | exact I].
  destruct (e'' <=? emax - prec); reflexivity.
Qed.

(** Adding a zero to a number that is not negative gives the number. *)
Lemma add_zero_r (t z : float) :
  nonneg t -> is_zero z = true -> (t + z)%float = t.
Proof.
  unfold nonneg. rewrite is_zero_spec. intros Ht Hz.
  apply Prim2SF_inj. rewrite add_spec. unfold SF64add.
  destruct (Prim2SF z) as [sz| | |]; try discriminate.
  destruct (Prim2SF t) as [s|s| |s m e]; simpl; try reflexivity.
  subst s. destruct sz; reflexivity.
Qed.

(** Adding a positive finite number keeps a number non-negative. *)
Lemma add_positive_nonneg (t r : float) :
  nonneg t -> isFinite r = true -> gt r 0 = true -> nonneg (t + r)%float.
Proof.
  unfold nonneg. rewrite isFinite_spec, gt0_spec, add_spec. unfold SF64add.
  destruct (Prim2SF r) as [sr|sr| |sr mr er]; try discriminate.
  destruct sr; try discriminate. intros Ht _ _.
  destruct (Prim2SF t) as [s|s| |s m e]; simpl; try reflexivity; try exact Ht.
  subst s. simpl. unfold binary_round.
  destruct (shl_align _ _ _) as [mz ez].
  apply (binary_round_aux_sign false).
Qed.

Lemma SFdiv_not_positive (X R : spec_float) :
  match X with
  | S754_zero _ | S754_infinity true | S754_finite true _ _ => True
  | _ => False
  end ->
  match R with
  | S754_infinity false | S754_finite false _ _ => True
  | _ => False
  end ->
  match SF64div X R with
  | S754_finite false _ _ => False
  | _ => True
  end.
Proof.
  unfold SF64div.
  destruct X as [sx|[|]| |[|] mx ex]; try contradiction;
    destruct R as [sr|[|]| |[|] mr er]; try contradiction; intros _ _;
    try exact I; try (destruct sx; exact I).
  unfold SFdiv.
  destruct (SFdiv_core_binary prec emax (Z.pos mx) ex (Z.pos mr) er) as [[mz ez] lz].
  pose proof (binary_round_aux_sign (xorb true false) mz ez lz) as Hs.
  destruct (binary_round_aux prec emax (xorb true false) mz ez lz) as [s|s| |s m e];
    try exact I.
  simpl in Hs. subst s. exact I.
Qed.

Lemma rate_agrees (info : TabDurationInfo) :
  rateOk info = true ->
  orDefault (playbackRate info) 1 = statedRate info /\ gt (statedRate info) 0 = true.
Proof.
  unfold rateOk, orDefault, statedRate, truthy.
  destruct (playbackRate info) as [r|]; [|intros _; split; reflexivity].
  rewrite leb0_spec, is_zero_spec, is_nan_spec, gt0_spec.
  destruct (Prim2SF r) as [s|[|]| |[|] m e] eqn:E; try discriminate; intros _;
    simpl; try rewrite E; split; reflexivity.
Qed.

(** On a record whose rate is not negative, one turn of the loop adds what
    the stated sum adds. *)
Lemma addRemaining_statedAdd (total : float) (info : TabDurationInfo) :
  nonneg total -> rateOk info = true ->
  addRemaining total info = statedAdd total info.
Proof.
  intros Ht Hr. destruct (rate_agrees info Hr) as [Erate Hpos].
  unfold addRemaining, statedAdd, statedRemaining. rewrite Erate.
  destruct (isLoading info); [reflexivity|]. simpl negb. cbv iota.
  set (x := (durationSeconds info - currentTimeSeconds info)%float).
  set (rho := statedRate info) in *.
  rewrite Math_max_zero.
  destruct (is_nan x) eqn:Hnan.
  - (* the difference is NaN: both quotients are NaN *)
    assert (Hq : forall y, is_nan y = true -> isFinite (y / rho)%float = false).
    { intros y Hy. rewrite isFinite_spec, div_spec. rewrite is_nan_spec in Hy.
      destruct (Prim2SF y); try discriminate. reflexivity. }
    rewrite (Hq x Hnan), (Hq nan eq_refl). reflexivity.
  - destruct (gt x 0) eqn:Hgt.
    + (* a positive difference: the same quotient on both sides *)
      set (q := (x / rho)%float).
      destruct (isFinite q) eqn:Hf; [|reflexivity]. simpl.
      destruct (gt q 0) eqn:Hq.
      * assert (Hl : lt q 0 = false).
        { rewrite lt0_spec. rewrite gt0_spec in Hq.
          destruct (Prim2SF q) as [s|[|]| |[|] m e]; try discriminate; reflexivity. }
        rewrite Hl. reflexivity.
      * destruct (lt q 0) eqn:Hl; [reflexivity|].
        symmetry. apply add_zero_r; [exact Ht|].
        rewrite is_zero_spec. rewrite isFinite_spec in Hf.
        rewrite gt0_spec in Hq. rewrite lt0_spec in Hl.
        destruct (Prim2SF q) as [s|[|]| |[|] m e]; try discriminate; reflexivity.
    + (* no positive difference: the code skips, the stated sum adds a zero *)
      assert (Hcode : isFinite (x / rho)%float && gt (x / rho)%float 0 = false).
      { rewrite isFinite_spec, gt0_spec, div_spec.
        pose proof (SFdiv_not_positive (Prim2SF x) (Prim2SF rho)) as Hd.
        rewrite is_nan_spec in Hnan. rewrite gt0_spec in Hgt, Hpos.
        destruct (Prim2SF x) as [sx|[|]| |[|] mx ex]; try discriminate;
          destruct (Prim2SF rho) as [sr|[|]| |[|] mr er]; try discriminate;
          specialize (Hd I I);
          destruct (SF64div _ _) as [s|[|]| |[|] m e]; try contradiction; reflexivity. }
      rewrite Hcode.
      assert (Hz : is_zero (0 / rho)%float = true).
      { rewrite is_zero_spec, div_spec, Prim2SF_zero. rewrite gt0_spec in Hpos.
        destruct (Prim2SF rho) as [sr|[|]| |[|] mr er]; try discriminate; reflexivity. }
      assert (Hfin : isFinite (0 / rho)%float = true /\ lt (0 / rho)%float 0 = false).
      { rewrite isFinite_spec, lt0_spec. rewrite is_zero_spec in Hz.
        destruct (Prim2SF (0 / rho)%float); try discriminate. split; reflexivity. }
      destruct Hfin as [Hf Hl]. rewrite Hf, Hl. simpl.
      symmetry. apply add_zero_r; assumption.
Qed.

Lemma addRemaining_nonneg (total : float) (info : TabDurationInfo) :
  nonneg total -> nonneg (addRemaining total info).
Proof.
  intros Ht. unfold addRemaining.
  destruct (isLoading info); simpl; [exact Ht|].
  destruct (isFinite _) eqn:Hf; [|exact Ht].
  destruct (gt _ 0) eqn:Hg; [|exact Ht].
  simpl. apply add_positive_nonneg; assumption.
Qed.

Lemma fold_addRemaining_stated (l : list TabDurationInfo) (total : float) :
  nonneg total -> forallb rateOk l = true ->
  fold_left addRemaining l total = fold_left statedAdd l total.
Proof.
  revert total. induction l as [|v l IH]; intros total Ht Hl; simpl; [reflexivity|].
  simpl in Hl. apply andb_prop in Hl. destruct Hl as [Hv Hl].
  rewrite <- (addRemaining_statedAdd total v Ht Hv).
  apply IH; [apply addRemaining_nonneg; exact Ht | exact Hl].
Qed.

(** C2, as stated, fails on a record whose rate is negative and whose
    position is past its duration: the code divides the negative difference
    by the negative rate and adds the positive quotient (5 here), where the
    stated formula clamps the difference to zero first. *)
Lemma aggregate_differs_at_negative_rate :
  calculateTotalRemaining negativeRateMap = 5%float /\
  statedTotal negativeRateMap = 0%float /\
  calculateTotalRemaining negativeRateMap <> statedTotal negativeRateMap.
Proof.
  split; [vm_compute; reflexivity|]. split; [vm_compute; reflexivity|].
  intros H. apply (f_equal (fun v => (v =? 5)%float)) in H.
  vm_compute in H. discriminate H.
Qed.

(** C2, amended: over a mapping in which no record has a negative or NaN
    rate, the aggregate is the sum, over the records with
    [isLoading = false] and in the order of the mapping, of
    [max(0, durationSeconds - currentTimeSeconds) / playbackRate], a missing
    or zero rate counting as 1 and non-finite or negative quotients
    contributing nothing. *)
Theorem aggregate_is_stated_sum (m : TabMap) :
  forallb rateOk (map_values m) = true ->
  calculateTotalRemaining m = statedTotal m.
Proof.
  intros H. unfold calculateTotalRemaining, statedTotal.
  apply fold_addRemaining_stated; [|exact H].
  unfold nonneg. rewrite Prim2SF_zero. reflexivity.
Qed.

Lemma aggregate_is_stated_sum_witness :
  calculateTotalRemaining scenarioMap = statedTotal scenarioMap /\
  statedTotal scenarioMap = 1200%float.
Proof.
  split.
  - apply (aggregate_is_stated_sum scenarioMap). reflexivity.
  - reflexivity.
Defined.

(** ** Timeouts *)

Lemma timersOk_calls pt ts nx cs cs' :
  timersOk' pt ts nx cs -> (forall c, In c cs -> In c cs') -> timersOk' pt ts nx cs'.
Proof.
  intros [Hf Hd Hk Hp Hl] Hsub. constructor; auto.
Qed.

Lemma timersOk_log pt ts nx cs c :
  timersOk' pt ts nx cs -> timersOk' pt ts nx (c :: cs).
Proof.
  intros H. apply (timersOk_calls _ _ _ cs); [exact H|]. intros c' Hc'. right. exact Hc'.
Qed.

Lemma fresh_not_in (ts : list (nat * Task)) (nx : nat) :
  (forall h t, In (h, t) ts -> (h < nx)%nat) -> ~ In nx (map fst ts).
Proof.
  intros Hf Hin. apply in_map_iff in Hin. destruct Hin as ([h t] & E & Hin).
  simpl in E. subst h. apply Hf in Hin. lia.
Qed.

Lemma NoDup_snoc (l : list nat) (x : nat) : NoDup l -> ~ In x l -> NoDup (l ++ [x]).
Proof.
  intros Hl Hx. induction Hl as [|y l Hy Hl IH]; simpl.
  - constructor; [intros []|constructor].
  - constructor.
    + rewrite in_app_iff. intros [H|[H|[]]]; [contradiction|].
      subst. apply Hx. left. reflexivity.
    + apply IH. intros H. apply Hx. right. exact H.
Qed.

Lemma timersOk_pull pt ts nx cs c tabId retries :
  timersOk' pt ts nx cs ->
  timersOk' pt (ts ++ [(nx, PullTask tabId retries)]) (S nx) (c :: cs).
Proof.
  intros [Hf Hd Hk Hp Hl]. constructor.
  - intros h t Hin. apply in_app_iff in Hin. destruct Hin as [Hin|[E|[]]].
    + apply Hf in Hin. lia.
    + inversion E. lia.
  - rewrite map_app. simpl. apply NoDup_snoc; [exact Hd | apply fresh_not_in; exact Hf].
  - intros h Hin. apply in_app_iff in Hin. destruct Hin as [Hin|[E|[]]]; [auto|discriminate E].
  - intros h E. apply in_app_iff. left. auto.
  - intros h E. right. auto.
Qed.

Lemma timersOk_persist ts nx cs :
  timersOk' None ts nx cs ->
  timersOk' (Some nx) (ts ++ [(nx, PersistTask)]) (S nx)
            (SetTimeout nx PersistTask 2000 :: cs).
Proof.
  intros [Hf Hd Hk Hp Hl]. constructor.
  - intros h t Hin. apply in_app_iff in Hin. destruct Hin as [Hin|[E|[]]].
    + apply Hf in Hin. lia.
    + inversion E. lia.
  - rewrite map_app. simpl. apply NoDup_snoc; [exact Hd | apply fresh_not_in; exact Hf].
  - intros h Hin. apply in_app_iff in Hin. destruct Hin as [Hin|[E|[]]].
    + apply Hk in Hin. discriminate Hin.
    + inversion E. reflexivity.
  - intros h E. inversion E; subst. apply in_app_iff. right. left. reflexivity.
  - intros h E. inversion E; subst. left. reflexivity.
Qed.

Lemma timersOk_reset pt ts nx cs : timersOk' pt ts nx cs -> timersOk' None [] nx cs.
Proof.
  intros _. constructor; try (intros; discriminate); try (intros ? ? []); try (intros ? []).
  constructor.
Qed.

Lemma NoDup_map_filter (f : nat * Task -> bool) (ts : list (nat * Task)) :
  NoDup (map fst ts) -> NoDup (map fst (filter f ts)).
Proof.
  induction ts as [|t ts IH]; simpl; intros H; [constructor|].
  inversion H as [|x l Hx Hl]; subst.
  destruct (f t); simpl; [|auto].
  constructor; [|auto].
  intros Hin. apply Hx. apply in_map_iff in Hin. destruct Hin as (t' & E & Hin).
  apply filter_In in Hin. apply in_map_iff. exists t'. tauto.
Qed.

(** The timeout a handle names. *)
Lemma find_timer (ts : list (nat * Task)) (h h' : nat) (task : Task) :
  find (fun t => Nat.eqb (fst t) h) ts = Some (h', task) -> h' = h /\ In (h, task) ts.
Proof.
  intros H. apply find_some in H. destruct H as [Hin E]. simpl in E.
  apply Nat.eqb_eq in E. subst h'. auto.
Qed.

Lemma find_known_timer (ts : list (nat * Task)) (h : nat) (task : Task) :
  NoDup (map fst ts) -> In (h, task) ts ->
  find (fun t => Nat.eqb (fst t) h) ts = Some (h, task).
Proof.
  induction ts as [|[h0 t0] ts IH]; simpl; intros Hd Hin; [contradiction|].
  inversion Hd as [|x l Hx Hl]; subst.
  destruct Hin as [E|Hin].
  - inversion E; subst. rewrite Nat.eqb_refl. reflexivity.
  - destruct (Nat.eqb h0 h) eqn:E; [|auto].
    apply Nat.eqb_eq in E. subst h0. exfalso. apply Hx.
    apply in_map_iff. exists (h, task). auto.
Qed.

Lemma timersOk_fired_persist h ts nx cs cs' :
  timersOk' (Some h) ts nx cs ->
  timersOk' None (filter (fun t => negb (Nat.eqb (fst t) h)) ts) nx cs'.
Proof.
  intros [Hf Hd Hk Hp Hl]. constructor.
  - intros h' t Hin. apply filter_In in Hin. destruct Hin as [Hin _]. eauto.
  - apply NoDup_map_filter. exact Hd.
  - intros h' Hin. apply filter_In in Hin. destruct Hin as [Hin E]. simpl in E.
    apply Hk in Hin. inversion Hin; subst. rewrite Nat.eqb_refl in E. discriminate E.
  - intros h' E. discriminate E.
  - intros h' E. discriminate E.
Qed.

Lemma timersOk_fired_pull pt h tabId retries ts nx cs c :
  timersOk' pt ts nx cs -> In (h, PullTask tabId retries) ts ->
  timersOk' pt (filter (fun t => negb (Nat.eqb (fst t) h)) ts) nx (c :: cs).
Proof.
  intros [Hf Hd Hk Hp Hl] Hin. constructor.
  - intros h' t Hin'. apply filter_In in Hin'. destruct Hin' as [Hin' _]. eauto.
  - apply NoDup_map_filter. exact Hd.
  - intros h' Hin'. apply filter_In in Hin'. destruct Hin' as [Hin' _]. auto.
  - intros h' E. apply filter_In. split; [auto|]. simpl.
    destruct (Nat.eqb h' h) eqn:Eh; [|reflexivity].
    apply Nat.eqb_eq in Eh. subst h'. exfalso.
    pose proof (find_known_timer ts h _ Hd Hin) as F1.
    pose proof (find_known_timer ts h _ Hd (Hp h E)) as F2.
    rewrite F1 in F2. discriminate F2.
  - intros h' E. right. auto.
Qed.

Lemma timersOk_updateBadge (w : World) : timersOk w -> timersOk (updateBadge w).
Proof.
  destruct w as [[m d pt] b]. unfold timersOk, updateBadge, schedulePersist.
  destruct d, pt; simpl; intros H;
    repeat first [ apply timersOk_persist | apply timersOk_log ]; exact H.
Qed.

Lemma timersOk_laterPull (tabId delay : Z) (w : World) :
  timersOk w -> timersOk (laterPull tabId delay w).
Proof.
  unfold timersOk, laterPull. simpl. apply timersOk_pull.
Qed.

Lemma timersOk_scan_pulls (ids : list Z) (w : World) :
  timersOk w -> timersOk (fold_left (fun w i => requestDurationFromTab i 2 w) ids w).
Proof.
  revert w. induction ids as [|i ids IH]; intros w H; simpl; [exact H|].
  apply IH. unfold timersOk, requestDurationFromTab. simpl. apply timersOk_log. exact H.
Qed.

Lemma timersOk_step (e : Event) (w : World) : timersOk w -> timersOk (step e w).
Proof.
  intros H. destruct e; unfold step.
  - unfold onWorkerStarted, timersOk. simpl. eapply timersOk_reset. exact H.
  - unfold onStorageLoaded. apply timersOk_updateBadge.
    destruct (storedDisplayEnabled (browser w));
      destruct (storedTabDurationsCache (browser _)); exact H.
  - unfold scanAllYouTubeTabs_queried. apply timersOk_scan_pulls. exact H.
  - apply timersOk_updateBadge. exact H.
  - unfold onRemoved. break_match; [apply timersOk_updateBadge|]; exact H.
  - unfold onUpdated. repeat break_match;
      try apply timersOk_laterPull; try apply timersOk_updateBadge; exact H.
  - unfold onHistoryStateUpdated. repeat break_match;
      try apply timersOk_laterPull; try apply timersOk_updateBadge; exact H.
  - unfold onReportDuration. repeat break_match;
      try apply timersOk_updateBadge; exact H.
  - exact H.
  - unfold onToggleDisplay. simpl. apply timersOk_updateBadge.
    unfold timersOk. simpl. apply timersOk_log. exact H.
  - unfold onTimerFired.
    destruct (find _ (timers (browser w))) as [[h' task]|] eqn:F; [|exact H].
    apply find_timer in F. destruct F as [_ Hin].
    destruct task as [|tabId retries].
    + unfold timersOk, persistNow. simpl.
      pose proof (persist_known _ _ _ _ H _ Hin) as E.
      unfold timersOk in H. rewrite E in H.
      eapply timersOk_fired_persist. exact H.
    + unfold timersOk, requestDurationFromTab. simpl.
      eapply timersOk_fired_pull; eauto.
  - unfold onPullSettled.
    destruct (nth_error _ index) as [[tabId retries]|]; [|exact H].
    unfold requestDurationFromTab_resume. destruct o as [|response]; [exact H|].
    match goal with
    | |- timersOk (if _ then _ else ?w') =>
        assert (Hw : timersOk w') by (apply timersOk_updateBadge; exact H)
    end.
    break_match; [|exact Hw].
    unfold timersOk in *. simpl. apply timersOk_pull. exact Hw.
Qed.

Lemma timersOk_fresh : timersOk freshWorld.
Proof.
  constructor; simpl; try (intros; discriminate); try (intros ? ? []); try (intros ? []).
  constructor.
Qed.

Lemma timersOk_reachable (w : World) : reachable w -> timersOk w.
Proof.
  induction 1 as [|e w Hr IH]; [apply timersOk_fresh | apply timersOk_step; exact IH].
Qed.

Lemma timersOk_run (es : list Event) (w : World) : timersOk w -> timersOk (run es w).
Proof.
  unfold run. revert w. induction es as [|e es IH]; intros w H; simpl; [exact H|].
  apply IH. apply timersOk_step. exact H.
Qed.

(** ** The throttle window *)

Lemma windowStep_updateBadge (w0 w : World) :
  persistTimeout (coord w) = persistTimeout (coord w0) ->
  cacheWrites (calls (browser w)) = cacheWrites (calls (browser w0)) ->
  persistTimersSet (calls (browser w)) = persistTimersSet (calls (browser w0)) ->
  windowStep true w0 (updateBadge w).
Proof.
  intros Ept Ew Ep. unfold windowStep. rewrite <- Ept, <- Ew, <- Ep.
  destruct w as [[m d pt] b]. unfold updateBadge, schedulePersist.
  destruct d, pt; simpl; repeat split; eauto.
Qed.

Lemma windowStep_same (w0 w : World) :
  persistTimeout (coord w) = persistTimeout (coord w0) ->
  cacheWrites (calls (browser w)) = cacheWrites (calls (browser w0)) ->
  persistTimersSet (calls (browser w)) = persistTimersSet (calls (browser w0)) ->
  windowStep false w0 w.
Proof.
  intros Ept Ew Ep. unfold windowStep. rewrite Ept, Ew, Ep.
  destruct (persistTimeout (coord w0)); repeat split; reflexivity.
Qed.

(** A pull timeout set after a step does not change what the step did. *)
Lemma windowStep_then_pull (mutation : bool) (w0 w : World) (tabId retries delay : Z) :
  windowStep mutation w0 w ->
  windowStep mutation w0
    (onBrowser (fun b => snd (setTimeout (PullTask tabId retries) delay b)) w).
Proof.
  unfold windowStep. simpl. auto.
Qed.

Lemma scan_pulls_counts (ids : list Z) (w : World) :
  let w' := fold_left (fun w i => requestDurationFromTab i 2 w) ids w in
  cacheWrites (calls (browser w')) = cacheWrites (calls (browser w)) /\
  persistTimersSet (calls (browser w')) = persistTimersSet (calls (browser w)).
Proof.
  revert w. induction ids as [|i ids IH]; intros w; simpl; [split; reflexivity|].
  destruct (IH (requestDurationFromTab i 2 w)) as [E1 E2]. simpl in *.
  rewrite E1, E2. split; reflexivity.
Qed.

Lemma window_step (e : Event) (w : World) :
  timersOk w -> inWindow e w = true -> windowStep (mutates e w) w (step e w).
Proof.
  intros Hok Hin.
  destruct e as [ | | tabsL | | k | k c u | f k u | sender data | | | h | i o ];
    unfold step, mutates; try discriminate Hin.
  - unfold onStorageLoaded. apply windowStep_updateBadge;
      destruct (storedDisplayEnabled (browser w));
      destruct (storedTabDurationsCache (browser _)); reflexivity.
  - unfold scanAllYouTubeTabs_queried.
    match goal with |- windowStep _ _ (fold_left _ ?ids ?w1) =>
      destruct (scan_pulls_counts ids w1) as [E1 E2] end.
    apply windowStep_same; [rewrite scan_pulls_coord; reflexivity | exact E1 | exact E2].
  - apply windowStep_updateBadge; reflexivity.
  - unfold onRemoved. destruct (map_has k _).
    + apply windowStep_updateBadge; reflexivity.
    + apply windowStep_same; reflexivity.
  - unfold onUpdated, laterPull.
    destruct c; cbn [andb negb]; [|apply windowStep_same; reflexivity].
    destruct (negb _); cbn [andb negb]; [|apply windowStep_same; reflexivity].
    destruct (isYouTubeVideoUrl u); cbn [andb negb].
    + apply (windowStep_then_pull _ _ _ k 2 1000). apply windowStep_same; reflexivity.
    + destruct (map_has k _).
      * apply windowStep_updateBadge; reflexivity.
      * apply windowStep_same; reflexivity.
  - unfold onHistoryStateUpdated, laterPull.
    destruct (f =? 0); cbn [andb negb]; [|apply windowStep_same; reflexivity].
    destruct (isYouTubeVideoUrl (Some u)); cbn [andb negb].
    + apply (windowStep_then_pull _ _ _ k 2 1500). apply windowStep_same; reflexivity.
    + destruct (map_has k _).
      * apply windowStep_updateBadge; reflexivity.
      * apply windowStep_same; reflexivity.
  - unfold onReportDuration. destruct sender as [k|].
    + destruct (negb _); apply windowStep_updateBadge; reflexivity.
    + apply windowStep_same; reflexivity.
  - apply windowStep_same; reflexivity.
  - unfold onToggleDisplay. simpl. apply windowStep_updateBadge; reflexivity.
  - unfold onTimerFired.
    destruct (find _ (timers (browser w))) as [[h' task]|] eqn:F;
      [|apply windowStep_same; reflexivity].
    apply find_timer in F. destruct F as [_ Hf].
    destruct task as [|k retries].
    + exfalso. pose proof (persist_known _ _ _ _ Hok _ Hf) as E.
      simpl in Hin. rewrite E in Hin. rewrite Nat.eqb_refl in Hin. discriminate Hin.
    + apply windowStep_same; reflexivity.
  - unfold onPullSettled.
    destruct (nth_error _ i) as [[k retries]|].
    + destruct o as [|response].
      * apply windowStep_same; reflexivity.
      * unfold requestDurationFromTab_resume.
        match goal with |- windowStep _ _ (if ?c then _ else _) => destruct c end;
          [apply windowStep_then_pull|]; apply windowStep_updateBadge; reflexivity.
    + destruct o; apply windowStep_same; reflexivity.
Qed.

Lemma windowStep_trans (a b : bool) (w w1 w2 : World) :
  windowStep a w w1 -> windowStep b w1 w2 -> windowStep (a || b) w w2.
Proof.
  unfold windowStep. intros [Ew1 H1] [Ew2 H2]. split; [congruence|].
  destruct (persistTimeout (coord w)) as [h|].
  - destruct H1 as [E1 P1]. rewrite E1 in H2. destruct H2 as [E2 P2].
    split; congruence.
  - destruct a; simpl.
    + destruct H1 as [[h E1] P1]. rewrite E1 in H2. destruct H2 as [E2 P2].
      split; [exists h; exact E2 | congruence].
    + destruct H1 as [E1 P1]. rewrite E1 in H2.
      destruct b; destruct H2 as [E2 P2]; split; congruence.
Qed.

Lemma window_run (es : list Event) (w : World) :
  timersOk w -> withinWindow es w = true ->
  windowStep (0 <? mutations es w)%nat w (run es w).
Proof.
  unfold run. revert w. induction es as [|e es IH]; intros w Hok Hin; simpl.
  - apply windowStep_same; reflexivity.
  - simpl in Hin. apply andb_prop in Hin. destruct Hin as [He Hes].
    replace (0 <? _)%nat with (mutates e w || (0 <? mutations es (step e w))%nat)
      by (destruct (mutates e w); reflexivity).
    eapply windowStep_trans.
    + apply window_step; assumption.
    + apply IH; [apply timersOk_step; exact Hok | exact Hes].
Qed.

(** C6: from a state with no write pending, any number N >= 1 of mutations,
    among any events that neither restart the worker nor fire the timeout of
    the window, set exactly one persistence timeout (with the delay of the
    window) and write nothing; further calls of [schedulePersist] change
    nothing while it is pending; when that timeout fires, exactly one write
    is made, of the mapping as it is at that moment. *)
Theorem throttle_window_one_write (w : World) (es : list Event) :
  reachable w ->
  persistTimeout (coord w) = None ->
  withinWindow es w = true ->
  (1 <= mutations es w)%nat ->
  let w' := run es w in
  persistTimersSet (calls (browser w')) = S (persistTimersSet (calls (browser w))) /\
  cacheWrites (calls (browser w')) = cacheWrites (calls (browser w)) /\
  schedulePersist w' = w' /\
  exists h,
    persistTimeout (coord w') = Some h /\
    In (SetTimeout h PersistTask 2000) (calls (browser w')) /\
    let w'' := step (TimerFired h) w' in
    calls (browser w'')
    = StorageSetCache (map_values (tabDurations (coord w'))) :: calls (browser w') /\
    cacheWrites (calls (browser w'')) = S (cacheWrites (calls (browser w))) /\
    storedTabDurationsCache (browser w'')
    = Some (map ItemInfo (map_values (tabDurations (coord w')))) /\
    persistTimeout (coord w'') = None /\
    tabDurations (coord w'') = tabDurations (coord w').
Proof.
  intros Hr Hnone Hwin Hmut. cbv zeta.
  pose proof (timersOk_reachable w Hr) as Hok.
  pose proof (timersOk_run es w Hok) as Hok'.
  destruct (window_run es w Hok Hwin) as [Hw Hp].
  rewrite Hnone in Hp.
  replace (0 <? mutations es w)%nat with true in Hp
    by (symmetry; apply Nat.ltb_lt; lia).
  destruct Hp as [[h Hh] Hp].
  split; [exact Hp|]. split; [exact Hw|]. split.
  { unfold schedulePersist. rewrite Hh. reflexivity. }
  exists h. split; [exact Hh|].
  split; [apply (persist_delay _ _ _ _ Hok' h Hh)|].
  pose proof (persist_pending _ _ _ _ Hok' h Hh) as Hpend.
  pose proof (find_known_timer _ _ _ (handles_distinct _ _ _ _ Hok') Hpend) as Hfind.
  cbv zeta. unfold step, onTimerFired. rewrite Hfind. unfold persistNow. simpl.
  repeat split; try reflexivity.
  change (S (cacheWrites (calls (browser (run es w)))) = S (cacheWrites (calls (browser w)))).
  f_equal. exact Hw.
Qed.

Lemma throttle_window_one_write_witness :
  let w' := run burst freshWorld in
  persistTimersSet (calls (browser w')) = 1%nat /\
  cacheWrites (calls (browser w')) = 0%nat /\
  cacheWrites (calls (browser (step (TimerFired 0) w'))) = 1%nat.
Proof.
  cbv zeta.
  destruct (throttle_window_one_write freshWorld burst)
    as (Hp & Hw & _ & h & Hh & _ & _ & Hw' & _).
  - apply reach_start.
  - reflexivity.
  - reflexivity.
  - apply Nat.leb_le. reflexivity.
  - split; [exact Hp|]. split; [exact Hw|].
    assert (E : h = O) by (vm_compute in Hh; inversion Hh; reflexivity).
    subst h. exact Hw'.
Defined.

(** * Further properties of the code *)

Import Popup Facts.

(** ** The aggregate *)

(** A record that is still loading adds nothing: the aggregate of a mapping
    is the aggregate of its records that are not loading. *)
Theorem aggregate_skips_loading (m : TabMap) :
  calculateTotalRemaining m
  = calculateTotalRemaining (filter (fun e => negb (isLoading (snd e))) m).
Proof.
  unfold calculateTotalRemaining, map_values.
  generalize 0%float as total.
  induction m as [|[k v] m IH]; intros total; simpl; [reflexivity|].
  destruct (isLoading v) eqn:E; simpl.
  - unfold addRemaining at 2. rewrite E. simpl. apply IH.
  - apply IH.
Qed.

Lemma shr_1_nonneg (mrs : shr_record) : 0 <= shr_m mrs -> 0 <= shr_m (shr_1 mrs).
Proof.
  destruct mrs as [m r s]. simpl.
  destruct m as [|p|p]; [| destruct p | ]; simpl; lia.
Qed.

Lemma iter_shr_1_nonneg (p : positive) (mrs : shr_record) :
  0 <= shr_m mrs -> 0 <= shr_m (iter_pos shr_1 p mrs).
Proof.
  revert mrs. induction p as [p IH|p IH|]; intros mrs H; simpl.
  - apply IH, IH, shr_1_nonneg, H.
  - apply IH, IH, H.
  - apply shr_1_nonneg, H.
Qed.

Lemma shr_fexp_nonneg (m e : Z) (l : location) :
  0 <= m -> 0 <= shr_m (fst (shr_fexp prec emax m e l)).
Proof.
  intros H. unfold shr_fexp, shr.
  assert (H0 : 0 <= shr_m (shr_record_of_loc m l)) by (destruct l as [|[| |]]; exact H).
  destruct (fexp prec emax (Zdigits2 m + e) - e); simpl; try exact H0.
  apply iter_shr_1_nonneg, H0.
Qed.

(** Rounding a mantissa that is not negative, with the sign [+], gives a
    number that is zero or more: never NaN. *)
Lemma binary_round_aux_positive (mx ex : Z) (lx : location) :
  0 <= mx ->
  match binary_round_aux prec emax false mx ex lx with
  | S754_zero false | S754_infinity false | S754_finite false _ _ => True
  | _ => False
  end.
Proof.
  intros H. unfold binary_round_aux.
  pose proof (shr_fexp_nonneg mx ex lx H) as H1.
  destruct (shr_fexp prec emax mx ex lx) as [mrs' e']. simpl in H1.
  assert (H2 : 0 <= round_nearest_even (shr_m mrs') (loc_of_shr_record mrs')).
  { unfold round_nearest_even.
    destruct (loc_of_shr_record mrs') as [|[| |]]; try exact H1; try lia.
    destruct (IntDef.Z.even (shr_m mrs')); lia. }
  pose proof (shr_fexp_nonneg _ e' loc_Exact H2) as H3.
  destruct (shr_fexp prec emax _ e' loc_Exact) as [mrs'' e'']. simpl in H3.
  destruct (shr_m mrs''); [exact I | | lia].
  destruct (e'' <=? emax - prec); exact I.
Qed.

Lemma add_positive_positiveOrZero (t r : float) :
  positiveOrZero t -> isFinite r = true -> gt r 0 = true -> positiveOrZero (t + r)%float.
Proof.
  unfold positiveOrZero. rewrite isFinite_spec, gt0_spec, add_spec. unfold SF64add.
  destruct (Prim2SF r) as [sr|sr| |sr mr er]; try discriminate.
  destruct sr; try discriminate. intros Ht _ _.
  destruct (Prim2SF t) as [[|]|[|]| |[|] m e]; try contradiction; simpl; try exact I.
  unfold binary_round.
  destruct (shl_align _ _ _) as [mz ez].
  apply binary_round_aux_positive. lia.
Qed.

Lemma addRemaining_positiveOrZero (total : float) (info : TabDurationInfo) :
  positiveOrZero total -> positiveOrZero (addRemaining total info).
Proof.
  intros Ht. unfold addRemaining.
  destruct (isLoading info); simpl; [exact Ht|].
  destruct (isFinite _) eqn:Hf; [|exact Ht].
  destruct (gt _ 0) eqn:Hg; [|exact Ht].
  simpl. apply add_positive_positiveOrZero; assumption.
Qed.

(** Whatever the records hold (NaN, infinite or negative fields, any rate),
    the aggregate is a number that is zero or more, possibly [+Infinity]:
    never negative, never NaN. *)
Theorem aggregate_never_negative_nor_nan (m : TabMap) :
  let total := calculateTotalRemaining m in
  (0 <=? total)%float = true /\ lt total 0 = false /\ is_nan total = false.
Proof.
  cbv zeta.
  assert (H : positiveOrZero (calculateTotalRemaining m)).
  { unfold calculateTotalRemaining.
    assert (H0 : positiveOrZero 0%float) by (unfold positiveOrZero; rewrite Prim2SF_zero; exact I).
    revert H0. generalize 0%float as total. generalize (map_values m) as l.
    induction l as [|v l IH]; intros total Ht; simpl; [exact Ht|].
    apply IH, addRemaining_positiveOrZero, Ht. }
  unfold positiveOrZero in H. rewrite leb0_spec, lt0_spec, is_nan_spec.
  destruct (Prim2SF _) as [[|]|[|]| |[|] mm ee]; try contradiction; repeat split.
Qed.

(** ** The page-data strategies *)

Lemma yieldOfField_usable (f : access loose) (d : float) :
  yieldOfField f = Some d -> usable d = true.
Proof.
  unfold yieldOfField.
  destruct f as [|[b [|n]]]; simpl; try discriminate;
    destruct b; try discriminate.
  destruct (usable n) eqn:E; [|discriminate]. intros H. inversion H; subst. exact E.
Qed.

Lemma scanScripts_usable (texts : list string) (d : float) :
  scanScripts texts = Some d -> usable d = true.
Proof.
  induction texts as [|text rest IH]; simpl; [discriminate|].
  destruct (isEmpty text || negb (includes "lengthSeconds" text)); [exact IH|].
  destruct (matchLength text) as [ds|]; [|exact IH].
  destruct (usable (ofZ (digitsValue 0 ds))) eqn:E; [|exact IH].
  intros H. inversion H; subst. exact E.
Qed.

Lemma getPageDataDuration_value (p : Page) :
  getPageDataDuration p = Ok (firstYield p).
Proof.
  unfold getPageDataDuration, firstYield, yieldOfField, fromLengthField,
    tryCatch, read, rbind, orElse.
  destruct (flexyLengthSeconds p) as [|[b1 [|n1]]]; simpl;
    try destruct b1; simpl; try destruct (usable n1); simpl; try reflexivity;
    (destruct (initialLengthSeconds p) as [|[b2 [|n2]]]; simpl;
     try destruct b2; simpl; try destruct (usable n2); simpl; try reflexivity);
    destruct (scanScripts (scripts p)); reflexivity.
Qed.

Lemma firstYield_usable (p : Page) (d : float) :
  firstYield p = Some d -> usable d = true.
Proof.
  unfold firstYield, orElse. intros Hy.
  destruct (yieldOfField (flexyLengthSeconds p)) eqn:E1;
    [inversion Hy; subst; eapply yieldOfField_usable; eauto|].
  destruct (yieldOfField (initialLengthSeconds p)) eqn:E2;
    [inversion Hy; subst; eapply yieldOfField_usable; eauto|].
  eapply scanScripts_usable; eauto.
Qed.

(** The three strategies are tried in order and the first that yields
    wins; a strategy whose read raises counts as yielding nothing, the
    function itself never raises, and a duration it returns is finite and
    positive.  In particular a usable field of the component data is
    returned whatever the other two sources hold. *)
Theorem getPageDataDuration_first_yield (p : Page) :
  getPageDataDuration p = Ok (firstYield p) /\
  (forall d, getPageDataDuration p = Ok (Some d) -> usable d = true) /\
  (forall d, yieldOfField (flexyLengthSeconds p) = Some d ->
             getPageDataDuration p = Ok (Some d)).
Proof.
  split; [apply getPageDataDuration_value|]. split.
  - intros d H. rewrite getPageDataDuration_value in H. inversion H as [H'].
    apply (firstYield_usable p d H').
  - intros d H. rewrite getPageDataDuration_value. unfold firstYield, orElse.
    rewrite H. reflexivity.
Qed.

(** What [extractDuration] returns, by cases. *)
Lemma extractDuration_shape (p : Page) :
  exists r,
    extractDuration p = Ok r /\
    (if resp_isLoading r
     then resp_durationSeconds r = 0%float /\ resp_currentTimeSeconds r = 0%float
     else usable (resp_durationSeconds r) = true) /\
    resp_url r = href p /\
    resp_videoType r = (if includes "/shorts/" (href p) then short else Types.video).
Proof.
  unfold extractDuration.
  destruct (isLiveStream_returns p) as [live Hlive]. rewrite Hlive. simpl rbind.
  destruct (videoDuration (getMainVideo p)) as [d|] eqn:Hv.
  - eexists. split; [reflexivity|]. simpl. split; [|split; reflexivity].
    unfold videoDuration in Hv. destruct (getMainVideo p) as [v|]; [|discriminate].
    destruct (isFinite (duration v) && gt (duration v) 0) eqn:E; [|discriminate].
    inversion Hv; subst. exact E.
  - rewrite getPageDataDuration_value. simpl rbind.
    destruct (firstYield p) as [d|] eqn:Hy.
    + eexists. split; [reflexivity|]. simpl. split; [|split; reflexivity].
      apply (firstYield_usable p d Hy).
    + eexists. split; [reflexivity|]. simpl. repeat split; reflexivity.
Qed.

(** Every record [extractDuration] returns is either loading, with zero
    duration and position, or not loading with a duration that is finite
    and positive, whichever source it came from. *)
Theorem extractDuration_duration_usable (p : Page) :
  exists r,
    extractDuration p = Ok r /\
    (if resp_isLoading r
     then resp_durationSeconds r = 0%float /\ resp_currentTimeSeconds r = 0%float
     else usable (resp_durationSeconds r) = true).
Proof.
  destruct (extractDuration_shape p) as (r & Hr & Hd & _).
  exists r. split; [exact Hr|].
  destruct (resp_isLoading r); exact Hd.
Qed.

(** ** The scan of script texts *)

Lemma trimStart_spaces (ws : string) (c : ascii) (s : string) :
  allChars isSpace ws = true -> isSpace c = false ->
  trimStart (ws ++ String c s) = String c s.
Proof.
  unfold allChars. intros Hws Hc.
  induction ws as [|a ws IH]; simpl in *.
  - rewrite Hc. reflexivity.
  - apply andb_prop in Hws. destruct Hws as [Ha Hws]. rewrite Ha. exact (IH Hws).
Qed.

Lemma spanDigits_digits (ds : string) (c : ascii) (s : string) :
  allChars isDigit ds = true -> isDigit c = false ->
  spanDigits (ds ++ String c s) = (ds, String c s).
Proof.
  unfold allChars. intros Hds Hc.
  induction ds as [|a ds IH]; simpl in *.
  - rewrite Hc. reflexivity.
  - apply andb_prop in Hds. destruct Hds as [Ha Hds]. rewrite Ha, (IH Hds). reflexivity.
Qed.

Lemma append_assoc (a b c : string) : ((a ++ b) ++ c = a ++ (b ++ c))%string.
Proof.
  induction a as [|x a IH]; simpl; [reflexivity|]. rewrite IH. reflexivity.
Qed.

(** A length field written as the page writes it is found, with its digits,
    whatever white space surrounds the colon and whatever follows. *)
Theorem matchLength_finds_field (ws1 ws2 digits rest : string) :
  allChars isSpace ws1 = true -> allChars isSpace ws2 = true ->
  allChars isDigit digits = true -> isEmpty digits = false ->
  matchLength (lengthFieldText ws1 ws2 digits ++ rest) = Some digits.
Proof.
  intros H1 H2 Hd Hne.
  assert (Hhere : matchLengthHere (lengthFieldText ws1 ws2 digits ++ rest) = Some digits).
  { unfold lengthFieldText, matchLengthHere, stripPrefix. simpl.
    rewrite !append_assoc. simpl.
    replace (String.prefix EmptyString _) with true by (destruct ws1; reflexivity).
    rewrite (trimStart_spaces ws1 ":"%char _ H1 eq_refl).
    rewrite !append_assoc. cbn [append].
    rewrite (trimStart_spaces ws2 dquote _ H2 eq_refl).
    rewrite Ascii.eqb_refl.
    rewrite !append_assoc. cbn [append].
    rewrite (spanDigits_digits digits dquote _ Hd eq_refl).
    rewrite Hne, Ascii.eqb_refl. reflexivity. }
  destruct (lengthFieldText ws1 ws2 digits ++ rest)%string as [|c s];
    [vm_compute in Hhere; discriminate Hhere|].
  unfold matchLength; fold matchLength. rewrite Hhere. reflexivity.
Qed.

Lemma matchLength_finds_field_witness :
  matchLength (lengthFieldText " " "  " "0213" ++ ",x") = Some "0213".
Proof.
  apply (matchLength_finds_field " " "  " "0213" ",x"); reflexivity.
Defined.

Lemma prefix_includes (pat s : string) : String.prefix pat s = true -> includes pat s = true.
Proof.
  intros H. destruct s; unfold includes; fold includes; rewrite H; reflexivity.
Qed.

Lemma includes_tail (pat : string) (c : ascii) (s : string) :
  includes pat s = true -> includes pat (String c s) = true.
Proof.
  intros H. unfold includes; fold includes. rewrite H. apply orb_true_r.
Qed.

Lemma prefix_cons (a b : ascii) (p s : string) :
  String.prefix (String a p) (String b s) = true -> String.prefix p s = true.
Proof.
  change (String.prefix (String a p) (String b s))
    with (match Ascii.ascii_dec a b with left _ => String.prefix p s | right _ => false end).
  destruct (Ascii.ascii_dec a b); [auto | discriminate].
Qed.

Lemma prefix_app_l (key tail s : string) :
  String.prefix (key ++ tail) s = true -> String.prefix key s = true.
Proof.
  revert s. induction key as [|a key IH]; intros s H.
  - destruct s; reflexivity.
  - destruct s as [|b s]; [discriminate H|].
    change (String.prefix (String a (key ++ tail)) (String b s) = true) in H.
    change (String.prefix (String a key) (String b s))
      with (match Ascii.ascii_dec a b with left _ => String.prefix key s | right _ => false end).
    pose proof (prefix_cons _ _ _ _ H) as H'.
    change (String.prefix (String a (key ++ tail)) (String b s))
      with (match Ascii.ascii_dec a b with
            | left _ => String.prefix (key ++ tail) s | right _ => false end) in H.
    destruct (Ascii.ascii_dec a b); [apply IH; exact H' | discriminate H].
Qed.

Lemma matchLengthHere_includes (s ds : string) :
  matchLengthHere s = Some ds -> includes "lengthSeconds" s = true.
Proof.
  unfold matchLengthHere, stripPrefix.
  destruct (String.prefix _ s) eqn:E; [|discriminate]. intros _.
  destruct s as [|c s]; [discriminate E|].
  apply prefix_cons in E.
  apply includes_tail, prefix_includes.
  exact (prefix_app_l "lengthSeconds" (String dquote EmptyString) s E).
Qed.

(** The guard [text.includes("lengthSeconds")] hides no match: a text in
    which the pattern matches contains the key, so the scripts the loop
    skips are scripts in which the pattern does not match. *)
Theorem match_implies_guard (text ds : string) :
  matchLength text = Some ds -> includes "lengthSeconds" text = true.
Proof.
  induction text as [|c text IH]; simpl.
  - destruct (matchLengthHere EmptyString) eqn:E; [|discriminate].
    intros _. apply (matchLengthHere_includes _ _ E).
  - destruct (matchLengthHere (String c text)) eqn:E.
    + intros _. apply (matchLengthHere_includes _ _ E).
    + intros H. rewrite (IH H). apply orb_true_r.
Qed.

Lemma match_implies_guard_witness :
  includes "lengthSeconds" ("{" ++ lengthFieldText EmptyString " " "42" ++ "}") = true.
Proof.
  apply (match_implies_guard ("{" ++ lengthFieldText EmptyString " " "42" ++ "}") "42").
  reflexivity.
Defined.

(** ** The mapping as a [Map] *)

Lemma map_get_set_other (k k' : Z) (v : TabDurationInfo) (m : TabMap) :
  k' <> k -> map_get k' (map_set k v m) = map_get k' m.
Proof.
  intros Hne. unfold map_get.
  induction m as [|[k0 v0] m IH]; simpl.
  - destruct (k =? k') eqn:E; [apply Z.eqb_eq in E; congruence | reflexivity].
  - destruct (k0 =? k) eqn:E0; simpl.
    + apply Z.eqb_eq in E0. subst k0.
      destruct (k =? k') eqn:E; [apply Z.eqb_eq in E; congruence | reflexivity].
    + destruct (k0 =? k'); [reflexivity | exact IH].
Qed.

Lemma map_get_filter (f : Z -> bool) (k : Z) (m : TabMap) :
  map_get k (filter (fun e => f (fst e)) m) = if f k then map_get k m else None.
Proof.
  unfold map_get.
  induction m as [|[k0 v0] m IH]; simpl; [destruct (f k); reflexivity|].
  destruct (f k0) eqn:E0; simpl.
  - destruct (k0 =? k) eqn:E; [|exact IH].
    apply Z.eqb_eq in E. subst k0. rewrite E0. reflexivity.
  - destruct (k0 =? k) eqn:E; [|exact IH].
    apply Z.eqb_eq in E. subst k0. rewrite E0 in IH. rewrite E0. exact IH.
Qed.

Lemma map_get_delete_other (k k' : Z) (m : TabMap) :
  k' <> k -> map_get k' (map_delete k m) = map_get k' m.
Proof.
  intros Hne. unfold map_delete.
  rewrite (map_get_filter (fun x => negb (x =? k)) k' m).
  destruct (k' =? k) eqn:E; [apply Z.eqb_eq in E; congruence | reflexivity].
Qed.

Lemma map_delete_absent (k : Z) (m : TabMap) :
  map_has k m = false -> map_delete k m = m.
Proof.
  unfold map_has, map_delete.
  induction m as [|[k0 v0] m IH]; simpl; [reflexivity|].
  intros H. apply orb_false_iff in H. destruct H as [H0 H]. rewrite H0. simpl.
  rewrite (IH H). reflexivity.
Qed.

Lemma keys_map_set (k x : Z) (v : TabDurationInfo) (m : TabMap) :
  In x (map fst (map_set k v m)) -> x = k \/ In x (map fst m).
Proof.
  induction m as [|[k0 v0] m IH]; simpl.
  - intros [H|[]]. left. symmetry. exact H.
  - destruct (k0 =? k) eqn:E; simpl.
    + apply Z.eqb_eq in E. subst k0. intros [H|H]; [left; symmetry; exact H | right; right; exact H].
    + intros [H|H]; [right; left; exact H | destruct (IH H); tauto].
Qed.

Lemma NoDup_keys_set (k : Z) (v : TabDurationInfo) (m : TabMap) :
  NoDup (map fst m) -> NoDup (map fst (map_set k v m)).
Proof.
  induction m as [|[k0 v0] m IH]; simpl; intros H.
  - constructor; [intros [] | constructor].
  - inversion H as [|x l Hx Hl]; subst.
    destruct (k0 =? k) eqn:E; simpl.
    + apply Z.eqb_eq in E. subst k0. constructor; assumption.
    + constructor; [|auto].
      intros Hin. apply keys_map_set in Hin. destruct Hin as [Hin|Hin]; [|contradiction].
      subst k0. rewrite Z.eqb_refl in E. discriminate E.
Qed.

Lemma NoDup_keys_filter (f : Z * TabDurationInfo -> bool) (m : TabMap) :
  NoDup (map fst m) -> NoDup (map fst (filter f m)).
Proof.
  induction m as [|e m IH]; simpl; intros H; [constructor|].
  inversion H as [|x l Hx Hl]; subst.
  destruct (f e); simpl; [|auto].
  constructor; [|auto].
  intros Hin. apply Hx. apply in_map_iff in Hin. destruct Hin as (e' & E & Hin).
  apply filter_In in Hin. apply in_map_iff. exists e'. tauto.
Qed.

Lemma NoDup_keys_restore (items : list CacheItem) (m : TabMap) :
  NoDup (map fst m) -> NoDup (map fst (restoreCache items m)).
Proof.
  unfold restoreCache. revert m.
  induction items as [|item items IH]; intros m H; simpl; [exact H|].
  apply IH. destruct item; try exact H. apply NoDup_keys_set. exact H.
Qed.

(** What an event can turn the mapping into. *)
Lemma step_mapping_shape (e : Event) (w : World) :
  let m := tabDurations (coord w) in
  let m' := tabDurations (coord (step e w)) in
  m' = [] \/ m' = m \/ (exists f, m' = filter f m) \/
  (exists k data, m' = map_set k (recordOf k data) m) \/
  (exists items, storedTabDurationsCache (browser w) = Some items /\
                 m' = restoreCache items m).
Proof.
  cbv zeta.
  destruct e as [ | | tabsL | | k | k c u | f k u | sender data | | | h | i o ];
    unfold step.
  - left. reflexivity.
  - unfold onStorageLoaded. rewrite tabDurations_updateBadge.
    destruct (storedDisplayEnabled (browser w));
      (destruct (storedTabDurationsCache (browser _)) as [items|] eqn:Hs; simpl;
       [ right; right; right; right; exists items;
         split; [first [exact Hs | reflexivity] | reflexivity]
       | right; left; reflexivity ]).
  - unfold scanAllYouTubeTabs_queried. rewrite scan_pulls_coord. simpl.
    right; right; left. eexists. reflexivity.
  - rewrite tabDurations_updateBadge. right; left. reflexivity.
  - unfold onRemoved. break_match; [|right; left; reflexivity].
    rewrite tabDurations_updateBadge. simpl. right; right; left. eexists. reflexivity.
  - unfold onUpdated, laterPull. repeat break_match; simpl;
      try (right; left; reflexivity).
    rewrite tabDurations_updateBadge. simpl. right; right; left. eexists. reflexivity.
  - unfold onHistoryStateUpdated, laterPull. repeat break_match; simpl;
      try (right; left; reflexivity).
    rewrite tabDurations_updateBadge. simpl. right; right; left. eexists. reflexivity.
  - unfold onReportDuration. repeat break_match;
      try (right; left; reflexivity);
      rewrite tabDurations_updateBadge; simpl.
    + right; right; left. eexists. reflexivity.
    + right; right; right; left. eexists. eexists. reflexivity.
  - right; left. reflexivity.
  - unfold onToggleDisplay. simpl. rewrite tabDurations_updateBadge. right; left. reflexivity.
  - unfold onTimerFired, persistNow, requestDurationFromTab.
    repeat break_match; simpl; right; left; reflexivity.
  - unfold onPullSettled, requestDurationFromTab_resume.
    repeat break_match; simpl; try (right; left; reflexivity);
      try rewrite tabDurations_updateBadge; simpl;
      right; right; right; left; eexists; eexists; reflexivity.
Qed.

Lemma wellKeyed_reachable (b : Browser) (w : World) :
  reachableFrom (startWorld b) w -> wellKeyed (tabDurations (coord w)).
Proof.
  intros Hr. split.
  - induction Hr as [|e w Hr IH]; [constructor|].
    destruct (step_mapping_shape e w)
      as [E | [E | [[f E] | [(k & data & E) | (items & _ & E)]]]]; rewrite E.
    + constructor.
    + exact IH.
    + apply NoDup_keys_filter. exact IH.
    + apply NoDup_keys_set. exact IH.
    + apply NoDup_keys_restore. exact IH.
  - induction Hr as [|e w Hr IH]; intros k v Hin; [destruct Hin|].
    destruct (step_entries _ _ _ _ Hin) as [H | [[data H] | (items & _ & _ & H)]].
    + apply IH. exact H.
    + subst v. reflexivity.
    + symmetry. exact H.
Qed.

(** ** Persisting and restoring *)

Lemma map_set_fresh (k : Z) (v : TabDurationInfo) (m : TabMap) :
  ~ In k (map fst m) -> map_set k v m = (m ++ [(k, v)])%list.
Proof.
  induction m as [|[k0 v0] m IH]; simpl; intros H; [reflexivity|].
  destruct (k0 =? k) eqn:E.
  - apply Z.eqb_eq in E. exfalso. apply H. left. exact E.
  - rewrite IH; [reflexivity|]. intros Hin. apply H. right. exact Hin.
Qed.

Lemma restoreCache_written (m acc : TabMap) :
  NoDup (map fst (acc ++ m)) -> (forall k v, In (k, v) m -> tabId v = k) ->
  restoreCache (map ItemInfo (map snd m)) acc = (acc ++ m)%list.
Proof.
  unfold restoreCache. revert acc.
  induction m as [|[k v] m IH]; intros acc Hd Hk; simpl.
  - rewrite app_nil_r. reflexivity.
  - rewrite (Hk k v (or_introl eq_refl)).
    rewrite map_set_fresh.
    + rewrite IH.
      * rewrite <- app_assoc. reflexivity.
      * rewrite <- app_assoc. exact Hd.
      * intros k' v' Hin. apply Hk. right. exact Hin.
    + rewrite map_app in Hd. simpl in Hd. apply NoDup_remove_2 in Hd.
      intros Hin. apply Hd. apply in_or_app. left. exact Hin.
Qed.

(** In every state the stored cache, when there is one, is what was written
    from a well-keyed mapping. *)
Lemma stored_cache_written (w : World) :
  reachable w ->
  forall items, storedTabDurationsCache (browser w) = Some items ->
  exists m, wellKeyed m /\ items = map ItemInfo (map snd m).
Proof.
  induction 1 as [|e w Hr IH]; intros items Hs; [discriminate Hs|].
  destruct (step_storage e w) as [E | E]; rewrite E in Hs.
  - apply IH. exact Hs.
  - inversion Hs. exists (tabDurations (coord w)).
    split; [apply (wellKeyed_reachable freshBrowser); exact Hr | reflexivity].
Qed.

(** A restart followed by the loading of the storage restores exactly the
    records last written, in the order they were written, and the stored
    display preference (the default [true] when none was stored). *)
Theorem restart_restores_written_cache (w : World) (items : list CacheItem) :
  reachable w ->
  storedTabDurationsCache (browser w) = Some items ->
  let w' := step StorageLoaded (step WorkerStarted w) in
  map ItemInfo (map_values (tabDurations (coord w'))) = items /\
  displayEnabled (coord w')
  = match storedDisplayEnabled (browser w) with Some v => v | None => true end.
Proof.
  intros Hr Hs. cbv zeta.
  destruct (stored_cache_written w Hr items Hs) as (m & [Hd Hk] & Em).
  unfold step, onStorageLoaded, onWorkerStarted. split.
  - rewrite tabDurations_updateBadge. simpl.
    destruct (storedDisplayEnabled (browser w)); simpl; rewrite Hs; simpl;
      subst items; rewrite (restoreCache_written m [] Hd Hk); reflexivity.
  - unfold updateBadge, schedulePersist. simpl.
    destruct (storedDisplayEnabled (browser w)) as [[|]|]; simpl; rewrite Hs; reflexivity.
Qed.

Lemma reachable_run (w0 w : World) (es : list Event) :
  reachableFrom w0 w -> reachableFrom w0 (run es w).
Proof.
  unfold run. revert w. induction es as [|e es IH]; intros w H; simpl; [exact H|].
  apply IH. apply reach_step. exact H.
Qed.

Lemma restart_restores_written_cache_witness :
  let w := run (burst ++ [TimerFired 0]) freshWorld in
  map_values (tabDurations (coord (step StorageLoaded (step WorkerStarted w))))
  = [recordOf 6 videoResponse].
Proof.
  cbv zeta.
  destruct (restart_restores_written_cache
              (run (burst ++ [TimerFired 0]) freshWorld)
              [ItemInfo (recordOf 6 videoResponse)]) as [H _].
  - apply reachable_run, reach_start.
  - reflexivity.
  - set (l := map_values _) in *.
    assert (E : forall a b, map ItemInfo a = map ItemInfo b -> a = b).
    { induction a as [|x a IH]; destruct b as [|y b]; simpl; intros E;
        try discriminate E; [reflexivity|].
      inversion E. f_equal. apply IH. assumption. }
    apply E. exact H.
Defined.

(** ** Tab events *)

(** Closing a tab forgets it: whether or not it had a record, the tab has
    none afterwards, every other tab keeps its record, and the snapshot of
    the detail view totals the records that remain. *)
Theorem tab_removed_forgets (w : World) (k : Z) :
  let w' := step (TabRemoved k) w in
  tabDurations (coord w') = map_delete k (tabDurations (coord w)) /\
  map_get k (tabDurations (coord w')) = None /\
  (forall k', k' <> k ->
     map_get k' (tabDurations (coord w')) = map_get k' (tabDurations (coord w))) /\
  totalDurationSeconds (onGetPopupData w')
  = calculateTotalRemaining (map_delete k (tabDurations (coord w))).
Proof.
  cbv zeta.
  assert (E : tabDurations (coord (step (TabRemoved k) w))
              = map_delete k (tabDurations (coord w))).
  { unfold step, onRemoved. destruct (map_has k _) eqn:H.
    - rewrite tabDurations_updateBadge. reflexivity.
    - symmetry. apply map_delete_absent. exact H. }
  change (step (TabRemoved k) w) with (onRemoved k w) in *.
  unfold onGetPopupData. simpl totalDurationSeconds. rewrite E.
  split; [reflexivity|]. split; [apply map_get_delete|].
  split; [|reflexivity].
  intros k' Hne. apply map_get_delete_other. exact Hne.
Qed.

(** A navigation event of a tab (a completed update, a history-state
    update) or its closing never touches the record of another tab, and
    never creates or changes the record of its own tab: that record is
    afterwards what it was, or gone. *)
Theorem navigation_only_removes (w : World) (k : Z) (e : Event) :
  (e = TabRemoved k \/ (exists c u, e = TabUpdated k c u) \/
   (exists f u, e = HistoryStateUpdated f k u)) ->
  forall k',
    map_get k' (tabDurations (coord (step e w))) = map_get k' (tabDurations (coord w)) \/
    (k' = k /\ map_get k' (tabDurations (coord (step e w))) = None).
Proof.
  intros He k'.
  assert (E : tabDurations (coord (step e w)) = tabDurations (coord w) \/
              tabDurations (coord (step e w)) = map_delete k (tabDurations (coord w))).
  { destruct He as [He | [(c & u & He) | (f & u & He)]]; subst e; unfold step.
    - unfold onRemoved. break_match; [right; apply tabDurations_updateBadge | left; reflexivity].
    - unfold onUpdated, laterPull. repeat break_match; simpl; try (left; reflexivity).
      right. apply tabDurations_updateBadge.
    - unfold onHistoryStateUpdated, laterPull. repeat break_match; simpl; try (left; reflexivity).
      right. apply tabDurations_updateBadge. }
  destruct E as [E|E]; rewrite E; [left; reflexivity|].
  destruct (Z.eq_dec k' k) as [Ek|Ek].
  - right. subst k'. split; [reflexivity | apply map_get_delete].
  - left. apply map_get_delete_other. exact Ek.
Qed.

Lemma navigation_only_removes_witness :
  let w := step (ReportDuration (Some 5) videoResponse) freshWorld in
  map_get 5 (tabDurations (coord (step (TabUpdated 5 true (Some "https://www.youtube.com/")) w)))
  = None.
Proof.
  cbv zeta.
  destruct (navigation_only_removes
              (step (ReportDuration (Some 5) videoResponse) freshWorld) 5
              (TabUpdated 5 true (Some "https://www.youtube.com/"))
              (or_intror (or_introl (ex_intro _ true (ex_intro _ _ eq_refl)))) 5)
    as [H | [_ H]].
  - reflexivity.
  - exact H.
Defined.

(** ** The scan *)

Lemma scan_pulls_inflight (ids : list Z) (w : World) :
  inflight (browser (fold_left (fun w i => requestDurationFromTab i 2 w) ids w))
  = (inflight (browser w) ++ map (fun i => (i, 2)) ids)%list.
Proof.
  revert w. induction ids as [|i ids IH]; intros w; simpl.
  - rewrite app_nil_r. reflexivity.
  - rewrite IH. simpl. rewrite <- app_assoc. reflexivity.
Qed.

Lemma scan_pulls_badge (ids : list Z) (w : World) :
  badgeText (browser (fold_left (fun w i => requestDurationFromTab i 2 w) ids w))
  = badgeText (browser w).
Proof.
  revert w. induction ids as [|i ids IH]; intros w; simpl; [reflexivity|].
  rewrite IH. reflexivity.
Qed.

(** When the tab query of the scan answers, the records of tabs that are
    not listed are dropped and every listed tab keeps its record untouched
    (a discarded tab included); a pull with two retries is sent to each
    listed tab that has an id and is not discarded, in the order of the
    list; the badge is not repainted yet. *)
Theorem scan_reconciles (w : World) (tabs : list Tab) :
  let w' := step (ScanQueried tabs) w in
  (forall k, map_get k (tabDurations (coord w'))
             = if existsb (Z.eqb k) (someIds tabs)
               then map_get k (tabDurations (coord w)) else None) /\
  inflight (browser w')
  = (inflight (browser w)
     ++ map (fun i => (i, 2)) (someIds (filter (fun t => negb (tab_discarded t)) tabs)))%list /\
  badgeText (browser w') = badgeText (browser w).
Proof.
  cbv zeta. unfold step, scanAllYouTubeTabs_queried.
  rewrite scan_pulls_coord, scan_pulls_inflight, scan_pulls_badge. simpl.
  repeat split.
  intros k. apply (map_get_filter (fun x => existsb (Z.eqb x) (someIds tabs))).
Qed.

(** ** Pulls *)

Lemma timers_updateBadge_pulls (w : World) (h : nat) (k r : Z) :
  In (h, PullTask k r) (timers (browser (updateBadge w))) ->
  In (h, PullTask k r) (timers (browser w)).
Proof.
  destruct w as [[m d pt] b]. unfold updateBadge, schedulePersist.
  destruct d, pt; simpl; try (intros H; exact H);
    intros H; apply in_app_iff in H; destruct H as [H|[H|[]]];
    try exact H; discriminate H.
Qed.

Lemma inflight_updateBadge (w : World) :
  inflight (browser (updateBadge w)) = inflight (browser w).
Proof.
  destruct w as [[m d pt] b]. unfold updateBadge, schedulePersist.
  destruct d, pt; reflexivity.
Qed.

(** The answer to a pull is stored under the tab that was asked, whatever
    URL it reports and whether or not the tab still had a record (a pull
    that settles after the record was removed creates it again); no other
    tab is touched.  A retry is scheduled, 3000 ms later and with one retry
    less, exactly when the answer is loading and retries are left. *)
Theorem pull_response_upserts (w : World) (i : nat) (k retries : Z) (r : DurationResponse) :
  nth_error (inflight (browser w)) i = Some (k, retries) ->
  let w' := step (PullSettled i (Responded r)) w in
  map_get k (tabDurations (coord w')) = Some (recordOf k r) /\
  (forall k', k' <> k ->
     map_get k' (tabDurations (coord w')) = map_get k' (tabDurations (coord w))) /\
  (if resp_isLoading r && (0 <? retries)
   then exists h, hd_error (calls (browser w'))
                  = Some (SetTimeout h (PullTask k (retries - 1)) 3000)
   else forall h k' r', In (h, PullTask k' r') (timers (browser w')) ->
                        In (h, PullTask k' r') (timers (browser w))).
Proof.
  intros Hn. cbv zeta. unfold step, onPullSettled. rewrite Hn.
  unfold requestDurationFromTab_resume.
  destruct (resp_isLoading r && (0 <? retries)); simpl.
  - rewrite tabDurations_updateBadge. simpl.
    split; [apply map_get_set|]. split; [intros; apply map_get_set_other; assumption|].
    eexists. reflexivity.
  - rewrite tabDurations_updateBadge. simpl.
    split; [apply map_get_set|]. split; [intros; apply map_get_set_other; assumption|].
    intros h k' r' H. apply timers_updateBadge_pulls in H. exact H.
Qed.

Lemma pull_response_upserts_witness :
  let w := step (TabRemoved 9) (step (TimerFired 0)
             (step (TabUpdated 9 true (Some watchUrl)) freshWorld)) in
  map_get 9 (tabDurations (coord w)) = None /\
  map_get 9 (tabDurations (coord (step (PullSettled 0 (Responded homeResponse)) w)))
  = Some (recordOf 9 homeResponse).
Proof.
  cbv zeta. split; [reflexivity|].
  apply (pull_response_upserts
           (step (TabRemoved 9) (step (TimerFired 0)
              (step (TabUpdated 9 true (Some watchUrl)) freshWorld)))
           0 9 2 homeResponse).
  reflexivity.
Defined.

Lemma in_removeNth {A : Type} (n : nat) (l : list A) (x : A) :
  In x (removeNth n l) -> In x l.
Proof.
  revert n. induction l as [|y l IH]; intros n H; destruct n; simpl in *; try contradiction.
  - right. exact H.
  - destruct H as [H|H]; [left; exact H | right; eapply IH; eauto].
Qed.

Lemma retriesOk_updateBadge (w : World) : retriesOk w -> retriesOk (updateBadge w).
Proof.
  intros [Ht Hf]. split.
  - intros h k r H. apply timers_updateBadge_pulls in H. eauto.
  - intros k r H. rewrite inflight_updateBadge in H. eauto.
Qed.

Lemma retriesOk_laterPull (k delay : Z) (w : World) :
  retriesOk w -> retriesOk (laterPull k delay w).
Proof.
  intros [Ht Hf]. split; simpl.
  - intros h k' r H. apply in_app_iff in H. destruct H as [H|[H|[]]]; [eauto|].
    inversion H; subst. lia.
  - exact Hf.
Qed.

Lemma scan_pulls_timers (ids : list Z) (w : World) :
  timers (browser (fold_left (fun w i => requestDurationFromTab i 2 w) ids w))
  = timers (browser w).
Proof.
  revert w. induction ids as [|i ids IH]; intros w; simpl; [reflexivity|].
  rewrite IH. reflexivity.
Qed.

Lemma retriesOk_step (e : Event) (w : World) : retriesOk w -> retriesOk (step e w).
Proof.
  intros H.
  destruct e as [ | | tabsL | | k | k c u | f k u | sender data | | | h | i o ];
    unfold step.
  - split; simpl; intros; contradiction.
  - unfold onStorageLoaded. apply retriesOk_updateBadge.
    destruct (storedDisplayEnabled (browser w));
      destruct (storedTabDurationsCache (browser _)); exact H.
  - unfold scanAllYouTubeTabs_queried. destruct H as [Ht Hf]. split.
    + rewrite scan_pulls_timers. exact Ht.
    + rewrite scan_pulls_inflight. simpl. intros k r Hin.
      apply in_app_iff in Hin. destruct Hin as [Hin|Hin]; [eauto|].
      apply in_map_iff in Hin. destruct Hin as (x & E & _). inversion E; subst. lia.
  - apply retriesOk_updateBadge. exact H.
  - unfold onRemoved. break_match; [apply retriesOk_updateBadge|]; exact H.
  - unfold onUpdated. repeat break_match;
      try apply retriesOk_laterPull; try apply retriesOk_updateBadge; exact H.
  - unfold onHistoryStateUpdated. repeat break_match;
      try apply retriesOk_laterPull; try apply retriesOk_updateBadge; exact H.
  - unfold onReportDuration. repeat break_match;
      try apply retriesOk_updateBadge; exact H.
  - exact H.
  - unfold onToggleDisplay. simpl. apply retriesOk_updateBadge. exact H.
  - unfold onTimerFired.
    destruct (find _ (timers (browser w))) as [[h' task]|] eqn:F; [|exact H].
    apply find_timer in F. destruct F as [_ Hin]. destruct H as [Ht Hf].
    destruct task as [|k retries]; split; simpl.
    + intros h0 k r Hf0. apply filter_In in Hf0. destruct Hf0 as [Hf0 _]. eauto.
    + exact Hf.
    + intros h0 k0 r Hf0. apply filter_In in Hf0. destruct Hf0 as [Hf0 _]. eauto.
    + intros k0 r Hin0. apply in_app_iff in Hin0. destruct Hin0 as [Hin0|[E|[]]]; [eauto|].
      inversion E; subst. eauto.
  - unfold onPullSettled.
    destruct (nth_error _ i) as [[k retries]|] eqn:Hn; [|exact H].
    assert (Hr : 0 <= retries <= 2).
    { destruct H as [_ Hf]. apply (Hf k). eapply nth_error_In. exact Hn. }
    assert (H1 : retriesOk (onBrowser (fun b => setInflight (removeNth i (inflight b)) b) w)).
    { destruct H as [Ht Hf]. split; simpl; [exact Ht|].
      intros k0 r Hin. apply in_removeNth in Hin. eauto. }
    unfold requestDurationFromTab_resume. destruct o as [|response]; [exact H1|].
    match goal with
    | |- retriesOk (if _ then _ else ?w') =>
        assert (Hw : retriesOk w') by (apply retriesOk_updateBadge; exact H1)
    end.
    destruct (resp_isLoading response && (0 <? retries)) eqn:Ec; [|exact Hw].
    apply andb_prop in Ec. destruct Ec as [_ Ec]. apply Z.ltb_lt in Ec.
    destruct Hw as [Ht Hf]. split; simpl.
    + intros h0 k0 r Hin. apply in_app_iff in Hin. destruct Hin as [Hin|[E|[]]]; [eauto|].
      inversion E; subst. lia.
    + exact Hf.
Qed.

(** The retry budget holds in every state: each pull that is scheduled or
    in flight has between 0 and 2 retries left. *)
Theorem retries_bounded (w : World) :
  reachable w ->
  (forall h k r, In (h, PullTask k r) (timers (browser w)) -> 0 <= r <= 2) /\
  (forall k r, In (k, r) (inflight (browser w)) -> 0 <= r <= 2).
Proof.
  induction 1 as [|e w Hr IH].
  - split; simpl; intros; contradiction.
  - apply retriesOk_step. exact IH.
Qed.

Lemma retries_bounded_witness :
  let w := step (PullSettled 0 (Responded homeResponse))
             (step (TimerFired 0) (step (TabUpdated 9 true (Some watchUrl)) freshWorld)) in
  In (2%nat, PullTask 9 1) (timers (browser w)) /\ 0 <= 1 <= 2.
Proof.
  cbv zeta.
  assert (Hin : In (2%nat, PullTask 9 1)
                  (timers (browser (step (PullSettled 0 (Responded homeResponse))
                     (step (TimerFired 0)
                        (step (TabUpdated 9 true (Some watchUrl)) freshWorld))))))
    by (vm_compute; auto).
  split; [exact Hin|].
  destruct (retries_bounded
              (step (PullSettled 0 (Responded homeResponse))
                 (step (TimerFired 0) (step (TabUpdated 9 true (Some watchUrl)) freshWorld))))
    as [Ht _].
  - repeat apply reach_step. apply reach_start.
  - exact (Ht _ _ _ Hin).
Defined.

(** ** The badge *)

Lemma badge_updateBadge (w : World) :
  badgeText (browser (updateBadge w)) = badgeOf (coord (updateBadge w)).
Proof.
  destruct w as [[m d pt] b]. unfold updateBadge, schedulePersist, badgeOf.
  destruct d, pt; reflexivity.
Qed.

Lemma badge_after_mutation (e : Event) (w : World) :
  mutates e w = true ->
  badgeText (browser (step e w)) = badgeOf (coord (step e w)).
Proof.
  destruct e as [ | | tabsL | | k | k c u | f k u | sender data | | | h | i o ];
    unfold step, mutates; try discriminate; try (intros _; apply badge_updateBadge).
  - intros H. unfold onRemoved. rewrite H. apply badge_updateBadge.
  - intros H. unfold onUpdated.
    destruct c; [|discriminate H]. cbn [andb] in *.
    destruct (negb _); [|discriminate H]. cbn [andb] in *.
    destruct (isYouTubeVideoUrl u); [discriminate H|]. cbn [andb negb] in *.
    rewrite H. apply badge_updateBadge.
  - intros H. unfold onHistoryStateUpdated.
    destruct (f =? 0); [|discriminate H]. cbn [andb negb] in *.
    destruct (isYouTubeVideoUrl (Some u)); [discriminate H|]. cbn [andb negb] in *.
    rewrite H. apply badge_updateBadge.
  - destruct sender as [k|]; [|discriminate]. intros _.
    unfold onReportDuration. destruct (negb _); apply badge_updateBadge.
  - destruct o as [|response]; [discriminate|].
    unfold onPullSettled.
    destruct (nth_error _ i) as [[k retries]|]; [|discriminate]. intros _.
    unfold requestDurationFromTab_resume.
    match goal with |- context [if ?c then _ else _] => destruct c end;
      [simpl browser; simpl coord|]; apply badge_updateBadge.
Qed.

Lemma pending_updateBadge (w : World) : persistTimeout (coord (updateBadge w)) <> None.
Proof.
  destruct w as [[m d pt] b]. unfold updateBadge, schedulePersist.
  destruct d, pt; simpl; discriminate.
Qed.

(** Every handler that changes the mapping or the preference leaves the
    badge painted from the state it leaves (empty when the display is off or
    the aggregate is not positive, the formatted aggregate otherwise) and a
    write of the cache pending. *)
Theorem badge_follows_mutation (e : Event) (w : World) :
  mutates e w = true ->
  badgeText (browser (step e w)) = badgeOf (coord (step e w)) /\
  persistTimeout (coord (step e w)) <> None.
Proof.
  intros H. split; [apply badge_after_mutation; exact H|].
  destruct e as [ | | tabsL | | k | k c u | f k u | sender data | | | h | i o ];
    unfold step, mutates in *; try discriminate H; try apply pending_updateBadge.
  - unfold onRemoved. rewrite H. apply pending_updateBadge.
  - unfold onUpdated.
    destruct c; [|discriminate H]. cbn [andb] in *.
    destruct (negb _); [|discriminate H]. cbn [andb] in *.
    destruct (isYouTubeVideoUrl u); [discriminate H|]. cbn [andb negb] in *.
    rewrite H. apply pending_updateBadge.
  - unfold onHistoryStateUpdated.
    destruct (f =? 0); [|discriminate H]. cbn [andb negb] in *.
    destruct (isYouTubeVideoUrl (Some u)); [discriminate H|]. cbn [andb negb] in *.
    rewrite H. apply pending_updateBadge.
  - destruct sender as [k|]; [|discriminate H].
    unfold onReportDuration. destruct (negb _); apply pending_updateBadge.
  - destruct o as [|response]; [discriminate H|].
    unfold onPullSettled.
    destruct (nth_error _ i) as [[k retries]|]; [|discriminate H].
    unfold requestDurationFromTab_resume.
    match goal with |- context [if ?c then _ else _] => destruct c end;
      [simpl coord|]; apply pending_updateBadge.
Qed.

Lemma badge_follows_mutation_witness :
  badgeText (browser (run burst freshWorld)) = Some "20m".
Proof.
  change (run burst freshWorld)
    with (step (TabRemoved 5)
            (step (ReportDuration (Some 6) videoResponse)
               (step (ReportDuration (Some 5) videoResponse) freshWorld))).
  rewrite (proj1 (badge_follows_mutation (TabRemoved 5)
             (step (ReportDuration (Some 6) videoResponse)
                (step (ReportDuration (Some 5) videoResponse) freshWorld)) eq_refl)).
  reflexivity.
Defined.

(** An event that does not repaint leaves the preference and the badge as
    they are, or is a restart, which turns the preference on. *)
Lemma step_without_repaint (e : Event) (w : World) :
  mutates e w = false ->
  (displayEnabled (coord (step e w)) = displayEnabled (coord w) /\
   badgeText (browser (step e w)) = badgeText (browser w)) \/
  displayEnabled (coord (step e w)) = true.
Proof.
  destruct e as [ | | tabsL | | k | k c u | f k u | sender data | | | h | i o ];
    unfold step, mutates; try discriminate.
  - intros _. right. reflexivity.
  - intros _. left. unfold scanAllYouTubeTabs_queried.
    rewrite scan_pulls_coord, scan_pulls_badge. split; reflexivity.
  - intros H. left. unfold onRemoved. rewrite H. split; reflexivity.
  - intros H. left. unfold onUpdated, laterPull.
    destruct c; [|split; reflexivity]. cbn [andb] in *.
    destruct (negb _); [|split; reflexivity]. cbn [andb] in *.
    destruct (isYouTubeVideoUrl u); [split; reflexivity|]. cbn [andb negb] in *.
    rewrite H. split; reflexivity.
  - intros H. left. unfold onHistoryStateUpdated, laterPull.
    destruct (f =? 0); [|split; reflexivity]. cbn [andb negb] in *.
    destruct (isYouTubeVideoUrl (Some u)); [split; reflexivity|]. cbn [andb negb] in *.
    rewrite H. split; reflexivity.
  - destruct sender as [k|]; [discriminate|]. intros _. left. split; reflexivity.
  - intros _. left. split; reflexivity.
  - intros _. left. unfold onTimerFired.
    destruct (find _ (timers (browser w))) as [[h' [|k retries]]|]; split; reflexivity.
  - intros H. left. unfold onPullSettled.
    destruct (nth_error _ i) as [[k retries]|]; [|split; reflexivity].
    destruct o as [|response]; [split; reflexivity | discriminate H].
Qed.

(** While the display is turned off the badge is empty, in every state. *)
Theorem disabled_badge_is_empty (w : World) :
  reachable w ->
  displayEnabled (coord w) = false -> badgeText (browser w) = Some EmptyString.
Proof.
  induction 1 as [|e w Hr IH]; [discriminate|].
  intros Hd. destruct (mutates e w) eqn:Hm.
  - rewrite (badge_after_mutation e w Hm). unfold badgeOf. rewrite Hd. reflexivity.
  - destruct (step_without_repaint e w Hm) as [[Ed Eb] | Et].
    + rewrite Eb. apply IH. rewrite <- Ed. exact Hd.
    + rewrite Et in Hd. discriminate Hd.
Qed.

Lemma disabled_badge_is_empty_witness :
  badgeText (browser (step (ReportDuration (Some 6) videoResponse)
                        (step ToggleDisplay (run burst freshWorld))))
  = Some EmptyString.
Proof.
  apply (disabled_badge_is_empty
           (step (ReportDuration (Some 6) videoResponse)
              (step ToggleDisplay (run burst freshWorld)))).
  - apply reach_step, reach_step, reachable_run, reach_start.
  - reflexivity.
Defined.

(** ** What the records are made of *)

(** Every record of the mapping, and every record of the stored cache, was
    built by a handler from a message. *)
Lemma records_built_by_handlers (w : World) :
  reachable w ->
  (forall k v, In (k, v) (tabDurations (coord w)) -> exists data, v = recordOf k data) /\
  (forall items v, storedTabDurationsCache (browser w) = Some items ->
                   In (ItemInfo v) items -> exists data, v = recordOf (tabId v) data).
Proof.
  induction 1 as [|e w Hr [IHm IHs]].
  - split; [intros k v []|]. intros items v H. discriminate H.
  - split.
    + intros k v Hin.
      destruct (step_entries _ _ _ _ Hin) as [H | [[data H] | (items & Hs & Hi & Hk)]].
      * eapply IHm; eauto.
      * exists data. exact H.
      * subst k. eapply IHs; eauto.
    + intros items v Hs Hi.
      destruct (step_storage e w) as [E | E]; rewrite E in Hs.
      * eapply IHs; eauto.
      * inversion Hs; subst items. apply in_map_iff in Hi.
        destruct Hi as (v' & Ev & Hv'). inversion Ev; subst v'.
        unfold map_values in Hv'. apply in_map_iff in Hv'.
        destruct Hv' as ([k v''] & Ev' & Hin). simpl in Ev'. subst v''.
        destruct (IHm k v Hin) as [data Ed]. exists data.
        rewrite Ed. reflexivity.
Qed.

(** The popup never shows a tab as live: in every state, no record handed
    to the popup carries the live mark (the handlers do not copy it), so a
    row reads "Loading..." for a loading record and the remaining time
    otherwise. *)
Theorem popup_never_shows_live (w : World) (tab : TabDurationInfo) :
  reachable w ->
  In tab (tabs (onGetPopupData w)) ->
  isLiveStream tab = None /\
  row_duration (createTabRow tab) <> Some "LIVE" /\
  row_duration (createTabRow tab)
  = (if isLoading tab then Some "Loading..."
     else option_map (fun t => t ++ " left")%string
            (formatTimestamp
               (Math_max 0 (durationSeconds tab - currentTimeSeconds tab)%float))).
Proof.
  intros Hr Hin. unfold onGetPopupData in Hin. simpl in Hin.
  unfold map_values in Hin. apply in_map_iff in Hin.
  destruct Hin as ([k v] & E & Hin). simpl in E. subst v.
  destruct (proj1 (records_built_by_handlers w Hr) k tab Hin) as [data Ed].
  assert (Hl : isLiveStream tab = None) by (rewrite Ed; reflexivity).
  split; [exact Hl|].
  unfold createTabRow, liveMark. rewrite Hl.
  destruct (isLoading tab); simpl; split; try reflexivity; try discriminate.
  destruct (formatTimestamp _) as [t|]; simpl; [|discriminate].
  intros H. inversion H as [H'].
  assert (L : String.length (t ++ " left") = 4%nat) by (rewrite H'; reflexivity).
  clear - L. induction t as [|c t IH]; simpl in L; [discriminate L|].
  destruct t as [|c' t]; simpl in L; [discriminate L|].
  destruct t as [|c'' t]; simpl in L; [discriminate L|].
  destruct t as [|c3 t]; simpl in L; [discriminate L|].
  destruct t as [|c4 t]; simpl in L; discriminate L.
Qed.

Lemma popup_never_shows_live_witness :
  row_duration (createTabRow (recordOf 7 liveResponse)) = Some "1:00:00 left".
Proof.
  destruct (popup_never_shows_live
              (step (ReportDuration (Some 7) liveResponse) freshWorld)
              (recordOf 7 liveResponse)) as (_ & _ & H).
  - apply reach_step, reach_start.
  - simpl. left. reflexivity.
  - rewrite H. reflexivity.
Defined.

(** ** URL patterns *)

Lemma prefix_app_includes (a b s : string) :
  String.prefix (a ++ b) s = true -> includes b s = true.
Proof.
  revert s. induction a as [|c a IH]; intros s H.
  - apply prefix_includes. exact H.
  - destruct s as [|c' s]; [discriminate H|].
    change (String.prefix (String c (a ++ b)) (String c' s) = true) in H.
    apply prefix_cons in H. apply includes_tail. apply IH. exact H.
Qed.

(** The coordinator and the extractor agree on Shorts, and on what is
    tracked: a URL the coordinator tracks is an https URL of
    www.youtube.com, and for a page whose URL matches the coordinator's
    Shorts pattern the extractor reports that URL with the type [short]. *)
Theorem tracked_urls_and_shorts (p : Page) :
  isYouTubeVideoUrl (Some (href p)) = true ->
  String.prefix "https://www.youtube.com/" (href p) = true /\
  (YOUTUBE_SHORTS_RE (href p) = true ->
   exists r, extractDuration p = Ok r /\ resp_url r = href p /\ resp_videoType r = short).
Proof.
  unfold isYouTubeVideoUrl, YOUTUBE_VIDEO_RE, YOUTUBE_SHORTS_RE.
  destruct (isEmpty (href p)); [discriminate|]. intros H. split.
  - apply orb_prop in H. destruct H as [H|H].
    + exact (prefix_app_l "https://www.youtube.com/" "watch" _ H).
    + exact (prefix_app_l "https://www.youtube.com/" "shorts/" _ H).
  - intros Hs.
    pose proof (prefix_app_includes "https://www.youtube.com" "/shorts/" _ Hs) as Hi.
    destruct (extractDuration_shape p) as (r & Hr & _ & Hu & Ht).
    exists r. rewrite Hi in Ht. auto.
Qed.

Lemma tracked_urls_and_shorts_witness :
  String.prefix "https://www.youtube.com/" (href livePage) = true.
Proof.
  apply (tracked_urls_and_shorts livePage). reflexivity.
Defined.

(** ** The content script *)

Lemma extractDuration_resolved (p : Page) (data : DurationResponse) :
  extractDuration p = Ok data -> resp_isLoading data = false ->
  usable (resp_durationSeconds data) = true.
Proof.
  intros H Hl. destruct (extractDuration_shape p) as (r & Hr & Hd & _).
  rewrite Hr in H. inversion H; subst r. rewrite Hl in Hd. exact Hd.
Qed.

Lemma withoutHandle_single (h : nat) : ContentScript.withoutHandle h [h] = [].
Proof.
  unfold ContentScript.withoutHandle. simpl. rewrite Nat.eqb_refl. reflexivity.
Qed.

Lemma tidy_start (s : ContentScript.Script) :
  ContentScript.tidy s -> ContentScript.tidy (ContentScript.startPeriodicReporting s).
Proof.
  intros [Hi Ho Hr]. unfold ContentScript.startPeriodicReporting, ContentScript.stopPeriodicReporting.
  destruct (ContentScript.reportInterval s) as [h|] eqn:E; constructor; simpl in *;
    try assumption; rewrite Hi; simpl; try rewrite Nat.eqb_refl; reflexivity.
Qed.

Lemma tidy_stop (s : ContentScript.Script) :
  ContentScript.tidy s -> ContentScript.tidy (ContentScript.stopPeriodicReporting s).
Proof.
  intros [Hi Ho Hr]. unfold ContentScript.stopPeriodicReporting.
  destruct (ContentScript.reportInterval s) as [h|] eqn:E; constructor; simpl in *;
    try assumption; try rewrite E; try assumption.
  rewrite Hi. simpl. rewrite Nat.eqb_refl. reflexivity.
Qed.

Lemma tidy_report (p : Page) (s s' : ContentScript.Script) :
  ContentScript.tidy s -> ContentScript.reportCurrentDuration p s = Ok s' ->
  ContentScript.tidy s'.
Proof.
  intros Ht. unfold ContentScript.reportCurrentDuration, rbind.
  destruct (extractDuration p) as [data|] eqn:E; [|discriminate].
  destruct (resp_isLoading data) eqn:El; simpl; intros H; inversion H; subst; [exact Ht|].
  apply tidy_start. destruct Ht as [Hi Ho Hr]. constructor; simpl; try assumption.
  intros r [Er|Hin]; [|auto]. subst r. split; [exact El|].
  apply (extractDuration_resolved p data E El).
Qed.

Lemma tidy_setup (p : Page) (s s' : ContentScript.Script) :
  ContentScript.tidy s -> ContentScript.setupVideoListeners p s = Ok s' ->
  ContentScript.tidy s'.
Proof.
  intros Ht. unfold ContentScript.setupVideoListeners.
  destruct (getMainVideo p) as [v|]; [|intros H; inversion H; subst; exact Ht].
  destruct (isFinite (duration v) && gt (duration v) 0); [apply tidy_report; exact Ht|].
  intros H. inversion H; subst. destruct Ht as [Hi Ho Hr]. constructor; assumption.
Qed.

Lemma tidy_wait (p : Page) (s s' : ContentScript.Script) :
  ContentScript.tidy s -> ContentScript.waitForVideoAndReport p s = Ok s' ->
  ContentScript.tidy s'.
Proof.
  intros Ht. unfold ContentScript.waitForVideoAndReport.
  rewrite getPageDataDuration_value. simpl rbind.
  destruct (firstYield p) as [d|].
  - unfold rbind. destruct (ContentScript.reportCurrentDuration p s) as [s1|] eqn:E1;
      [|discriminate].
    apply tidy_setup. eapply tidy_report; eauto.
  - destruct (getMainVideo p) as [v|].
    + destruct (isFinite (duration v) && gt (duration v) 0);
        [apply tidy_report | apply tidy_setup]; exact Ht.
    + intros H. inversion H; subst. destruct Ht as [Hi Ho Hr].
      unfold ContentScript.observeForData. constructor; simpl; try assumption.
      rewrite Ho. destruct (ContentScript.domObserver s); simpl;
        try rewrite Nat.eqb_refl; reflexivity.
Qed.

Lemma tidy_disconnect (o : nat) (s : ContentScript.Script) :
  ContentScript.tidy s -> existsb (Nat.eqb o) (ContentScript.observers s) = true ->
  ContentScript.tidy (ContentScript.disconnectObserver o s).
Proof.
  intros [Hi Ho Hr] Hin. constructor; simpl; try assumption.
  rewrite Ho in *. destruct (ContentScript.domObserver s) as [o'|]; simpl in *;
    [|reflexivity].
  rewrite orb_false_r in Hin. apply Nat.eqb_eq in Hin. subst o'.
  rewrite Nat.eqb_refl. reflexivity.
Qed.

Lemma tidy_step (e : ContentScript.Event) (s s' : ContentScript.Script) :
  ContentScript.tidy s -> ContentScript.step e s = Ok s' -> ContentScript.tidy s'.
Proof.
  intros Ht. destruct e as [p|p|p|h p|o p|l d p|p]; unfold ContentScript.step.
  - intros H. inversion H; subst. unfold ContentScript.onNavigate.
    destruct (String.eqb _ _); [exact Ht|].
    assert (H1 : ContentScript.tidy
                   (ContentScript.stopPeriodicReporting (ContentScript.setCurrentUrl (href p) s))).
    { apply tidy_stop. destruct Ht as [Hi Ho Hr]. constructor; assumption. }
    destruct H1 as [Hi Ho Hr]. constructor; assumption.
  - intros H. inversion H; subst. unfold ContentScript.onNavigate.
    destruct (String.eqb _ _); [exact Ht|].
    assert (H1 : ContentScript.tidy
                   (ContentScript.stopPeriodicReporting (ContentScript.setCurrentUrl (href p) s))).
    { apply tidy_stop. destruct Ht as [Hi Ho Hr]. constructor; assumption. }
    destruct H1 as [Hi Ho Hr]. constructor; assumption.
  - destruct (ContentScript.pendingWaits s) as [|n];
      [intros H; inversion H; subst; exact Ht|].
    apply tidy_wait. destruct Ht as [Hi Ho Hr]. constructor; assumption.
  - destruct (existsb _ _); [|intros H; inversion H; subst; exact Ht].
    unfold ContentScript.tick, rbind.
    destruct (extractDuration p) as [data|] eqn:E; [|discriminate].
    assert (H0 : ContentScript.tidy
                   (if String.eqb (href p) (ContentScript.currentUrl s) then s
                    else ContentScript.setCurrentUrl (href p) s)).
    { destruct (String.eqb _ _); [exact Ht|].
      destruct Ht as [Hi Ho Hr]. constructor; assumption. }
    destruct (resp_isLoading data) eqn:El; simpl; intros H; inversion H; subst; [exact H0|].
    destruct H0 as [Hi Ho Hr]. constructor; simpl; try assumption.
    intros r [Er|Hin]; [|auto]. subst r. split; [exact El|].
    apply (extractDuration_resolved p data E El).
  - destruct (existsb _ _) eqn:Hin; [|intros H; inversion H; subst; exact Ht].
    unfold ContentScript.observerCallback.
    rewrite getPageDataDuration_value. simpl rbind.
    pose proof (tidy_disconnect o s Ht Hin) as Hd.
    destruct (firstYield p) as [d|].
    + unfold rbind.
      destruct (ContentScript.reportCurrentDuration p _) as [s1|] eqn:E1; [|discriminate].
      apply tidy_setup. eapply tidy_report; eauto.
    + destruct (getMainVideo p) as [v|];
        [apply tidy_wait; exact Hd | intros H; inversion H; subst; exact Ht].
  - destruct (existsb _ _); [|intros H; inversion H; subst; exact Ht].
    unfold ContentScript.onReady.
    destruct (isFinite d && gt d 0); [|intros H; inversion H; subst; exact Ht].
    apply tidy_report. destruct Ht as [Hi Ho Hr]. constructor; assumption.
  - unfold rbind. destruct (extractDuration p); [|discriminate].
    intros H. inversion H; subst. exact Ht.
Qed.

Lemma tidy_reachable (s : ContentScript.Script) :
  ContentScript.reachable s -> ContentScript.tidy s.
Proof.
  induction 1 as [p s Hm | e s s' Hr IH Hs].
  - unfold ContentScript.main in Hm. eapply tidy_wait; [|exact Hm].
    constructor; simpl; try reflexivity. intros r [].
  - eapply tidy_step; eauto.
Qed.

Import ScriptSamples.

Lemma reportCurrentDuration_returns (p : Page) (s : ContentScript.Script) :
  exists s', ContentScript.reportCurrentDuration p s = Ok s'.
Proof.
  unfold ContentScript.reportCurrentDuration, rbind.
  destruct (extractDuration_shape p) as (r & Hr & _). rewrite Hr.
  destruct (negb (resp_isLoading r)); eexists; reflexivity.
Qed.

Lemma setupVideoListeners_returns (p : Page) (s : ContentScript.Script) :
  exists s', ContentScript.setupVideoListeners p s = Ok s'.
Proof.
  unfold ContentScript.setupVideoListeners.
  destruct (getMainVideo p) as [v|]; [|eexists; reflexivity].
  destruct (isFinite (duration v) && gt (duration v) 0);
    [apply reportCurrentDuration_returns | eexists; reflexivity].
Qed.

Lemma waitForVideoAndReport_returns (p : Page) (s : ContentScript.Script) :
  exists s', ContentScript.waitForVideoAndReport p s = Ok s'.
Proof.
  unfold ContentScript.waitForVideoAndReport.
  rewrite getPageDataDuration_value. simpl rbind.
  destruct (firstYield p) as [d|].
  - destruct (reportCurrentDuration_returns p s) as [s1 E1]. rewrite E1. simpl.
    apply setupVideoListeners_returns.
  - destruct (getMainVideo p) as [v|]; [|eexists; reflexivity].
    destruct (isFinite (duration v) && gt (duration v) 0);
      [apply reportCurrentDuration_returns | apply setupVideoListeners_returns].
Qed.

(** No turn of the content script raises, whatever the page holds and
    whatever raises inside the page-data reads: [main] and every callback
    run to their end. *)
Theorem script_never_raises (p : Page) (e : ContentScript.Event) (s : ContentScript.Script) :
  (exists s0, ContentScript.main p = Ok s0) /\
  (exists s', ContentScript.step e s = Ok s').
Proof.
  split; [apply waitForVideoAndReport_returns|].
  destruct e as [q|q|q|h q|o q|l d q|q]; unfold ContentScript.step.
  - eexists. reflexivity.
  - eexists. reflexivity.
  - destruct (ContentScript.pendingWaits s);
      [eexists; reflexivity | apply waitForVideoAndReport_returns].
  - destruct (existsb _ _); [|eexists; reflexivity].
    unfold ContentScript.tick, rbind.
    destruct (extractDuration_shape q) as (r & Hr & _). rewrite Hr.
    destruct (negb (resp_isLoading r)); eexists; reflexivity.
  - destruct (existsb _ _); [|eexists; reflexivity].
    unfold ContentScript.observerCallback.
    rewrite getPageDataDuration_value. simpl rbind.
    destruct (firstYield q) as [d|].
    + destruct (reportCurrentDuration_returns q (ContentScript.disconnectObserver o s))
        as [s1 E1].
      rewrite E1. simpl. apply setupVideoListeners_returns.
    + destruct (getMainVideo q);
        [apply waitForVideoAndReport_returns | eexists; reflexivity].
  - destruct (existsb _ _); [|eexists; reflexivity].
    unfold ContentScript.onReady.
    destruct (isFinite d && gt d 0);
      [apply reportCurrentDuration_returns | eexists; reflexivity].
  - unfold rbind. destruct (extractDuration_shape q) as (r & Hr & _). rewrite Hr.
    eexists. reflexivity.
Qed.

(** The script never leaks what it creates: in every state at most one
    reporting interval is alive, the one held in [reportInterval], and at
    most one mutation observer is connected, the one held in
    [domObserver]. *)
Theorem script_owns_interval_and_observer (s : ContentScript.Script) :
  ContentScript.reachable s ->
  ContentScript.intervals s = ContentScript.optionList (ContentScript.reportInterval s) /\
  ContentScript.observers s = ContentScript.optionList (ContentScript.domObserver s) /\
  (List.length (ContentScript.intervals s) <= 1)%nat /\
  (List.length (ContentScript.observers s) <= 1)%nat.
Proof.
  intros Hr. destruct (tidy_reachable s Hr) as [Hi Ho _].
  rewrite Hi, Ho. repeat split; try reflexivity.
  - destruct (ContentScript.reportInterval s); simpl; lia.
  - destruct (ContentScript.domObserver s); simpl; lia.
Qed.

Lemma liveScript_reachable : ContentScript.reachable liveScript.
Proof.
  apply (ContentScript.reach_main livePage). reflexivity.
Qed.

Lemma script_owns_interval_and_observer_witness :
  ContentScript.intervals liveScript = [O] /\ ContentScript.observers liveScript = [].
Proof.
  destruct (script_owns_interval_and_observer liveScript liveScript_reachable)
    as (Hi & Ho & _).
  rewrite Hi, Ho. split; reflexivity.
Defined.

(** Every report the script pushes is a resolved one: not loading, with a
    finite positive duration.  Handled by the coordinator, such a push never
    leaves a loading record: the tab's record afterwards is not loading, or
    there is none. *)
Theorem script_pushes_resolved_reports (s : ContentScript.Script) (r : DurationResponse) :
  ContentScript.reachable s -> In r (ContentScript.sent s) ->
  resp_isLoading r = false /\ usable (resp_durationSeconds r) = true /\
  forall (w : World) (k : Z),
    match map_get k (tabDurations (coord (step (ReportDuration (Some k) r) w))) with
    | Some v => isLoading v = false /\ usable (durationSeconds v) = true
    | None => True
    end.
Proof.
  intros Hr Hin. destruct (tidy_reachable s Hr) as [_ _ Hs].
  destruct (Hs r Hin) as [Hl Hu]. split; [exact Hl|]. split; [exact Hu|].
  intros w k. unfold step, onReportDuration.
  destruct (negb (isYouTubeVideoUrl (Some (resp_url r)))).
  - rewrite tabDurations_updateBadge. simpl. rewrite map_get_delete. exact I.
  - rewrite tabDurations_updateBadge. simpl. rewrite map_get_set. simpl. auto.
Qed.

Lemma script_pushes_resolved_reports_witness :
  resp_isLoading liveResponse = false /\ usable (resp_durationSeconds liveResponse) = true.
Proof.
  destruct (script_pushes_resolved_reports liveScript liveResponse liveScript_reachable)
    as (H1 & H2 & _).
  - simpl. left. reflexivity.
  - split; assumption.
Defined.

(** A navigation to another URL stops the periodic reporting (no interval
    is left alive), records the new URL and schedules one wait for the new
    page, pushing nothing; a navigation event with the URL unchanged does
    nothing at all. *)
Theorem navigation_stops_reporting (s : ContentScript.Script) (p : Page) :
  ContentScript.reachable s ->
  let s' := ContentScript.onNavigate p s in
  if String.eqb (href p) (ContentScript.currentUrl s) then s' = s
  else
    ContentScript.reportInterval s' = None /\
    ContentScript.intervals s' = [] /\
    ContentScript.currentUrl s' = href p /\
    ContentScript.pendingWaits s' = S (ContentScript.pendingWaits s) /\
    ContentScript.sent s' = ContentScript.sent s.
Proof.
  intros Hr. cbv zeta. destruct (tidy_reachable s Hr) as [Hi _ _].
  unfold ContentScript.onNavigate.
  destruct (String.eqb (href p) (ContentScript.currentUrl s)); [reflexivity|].
  unfold ContentScript.stopPeriodicReporting. simpl.
  destruct (ContentScript.reportInterval s) as [h|] eqn:E; simpl;
    repeat split; try reflexivity; try exact E;
    rewrite Hi; simpl; try rewrite Nat.eqb_refl; reflexivity.
Qed.

Lemma navigation_stops_reporting_witness :
  ContentScript.intervals liveScript = [O] /\
  ContentScript.intervals (ContentScript.onNavigate nextPage liveScript) = [] /\
  ContentScript.onNavigate livePage liveScript = liveScript.
Proof.
  split; [reflexivity|].
  pose proof (navigation_stops_reporting liveScript nextPage liveScript_reachable) as H1.
  pose proof (navigation_stops_reporting liveScript livePage liveScript_reachable) as H2.
  cbv zeta in H1, H2.
  change (String.eqb (href nextPage) (ContentScript.currentUrl liveScript)) with false in H1.
  change (String.eqb (href livePage) (ContentScript.currentUrl liveScript)) with true in H2.
  destruct H1 as (_ & H1 & _). split; assumption.
Defined.

(** ** Live streams on the page *)

(** A page whose media element has an infinite duration is reported as a
    live stream, and never with that duration: the record is loading, or
    carries the finite length the page data yield. *)
Theorem infinite_duration_is_live (p : Page) (v : Video) :
  getMainVideo p = Some v -> duration v = infinity ->
  exists r,
    extractDuration p = Ok r /\
    resp_isLiveStream r = true /\
    (if resp_isLoading r then firstYield p = None
     else firstYield p = Some (resp_durationSeconds r) /\
          isFinite (resp_durationSeconds r) = true).
Proof.
  intros Hm Hd.
  assert (Hlive : Content.isLiveStream p = Ok true).
  { unfold Content.isLiveStream, tryCatch, read, rbind. rewrite Hm, Hd.
    destruct (flexyIsLive p) as [|[|]]; destruct (initialIsLive p) as [|[|]]; reflexivity. }
  unfold extractDuration. rewrite Hlive, Hm. simpl rbind.
  unfold videoDuration. rewrite Hd.
  change (isFinite infinity && gt infinity 0) with false. cbv iota.
  rewrite getPageDataDuration_value. simpl rbind.
  destruct (firstYield p) as [d|] eqn:Hy.
  - eexists. split; [reflexivity|]. simpl. split; [reflexivity|]. split; [reflexivity|].
    pose proof (firstYield_usable p d Hy) as Hu. unfold usable in Hu.
    apply andb_prop in Hu. tauto.
  - eexists. split; [reflexivity|]. simpl. split; reflexivity.
Qed.

Lemma infinite_duration_is_live_witness :
  exists r, extractDuration
              {| href := watchUrl; documentTitle := "Live - YouTube";
                 activeRenderer := None; reelVideos := [];
                 moviePlayerVideo := Some {| duration := infinity; currentTime := 42;
                                             paused := false |};
                 html5MainVideo := None; anyVideo := None;
                 flexyLengthSeconds := Got {| toBoolean := true; toNumber := Got 0%float |};
                 flexyIsLive := Threw;
                 initialLengthSeconds := Threw; initialIsLive := Got false;
                 scripts := [];
                 watchMetadataHeading := None; infoHeading := None;
                 activeReelHeading := None |} = Ok r /\
            resp_isLiveStream r = true /\ resp_isLoading r = true.
Proof.
  match goal with |- exists r, extractDuration ?pg = _ /\ _ =>
    destruct (infinite_duration_is_live pg
                {| duration := infinity; currentTime := 42; paused := false |}
                eq_refl eq_refl) as (r & Hr & Hl & Hc)
  end.
  exists r. split; [exact Hr|]. split; [exact Hl|].
  vm_compute in Hr. inversion Hr. reflexivity.
Defined.

(** ** Restoring an arbitrary cache *)

Lemma restoreCache_lookup_acc (k : Z) (items : list CacheItem) (m : TabMap)
    (acc : option TabDurationInfo) :
  map_get k m = match acc with Some v => Some v | None => map_get k m end ->
  map_get k (restoreCache items m)
  = match fold_left (fun acc item =>
                       match item with
                       | ItemInfo info => if tabId info =? k then Some info else acc
                       | _ => acc
                       end) items acc with
    | Some v => Some v
    | None => map_get k m
    end.
Proof.
  unfold restoreCache. revert m acc.
  induction items as [|item items IH]; intros m acc Hacc; simpl.
  - exact Hacc.
  - destruct item as [| |info]; try (apply IH; exact Hacc).
    destruct (tabId info =? k) eqn:E.
    + apply Z.eqb_eq in E.
      rewrite (IH (map_set (tabId info) info m) (Some info)).
      * destruct (fold_left _ items (Some info)) eqn:F; [reflexivity|].
        exfalso. revert F. clear. generalize info.
        induction items as [|it items IH]; intros i F; simpl in F; [discriminate F|].
        destruct it as [| |i']; try exact (IH _ F).
        destruct (tabId i' =? k); exact (IH _ F).
      * rewrite E. apply map_get_set.
    + assert (Hne : k <> tabId info) by (intros Ek; subst k; rewrite Z.eqb_refl in E; discriminate E).
      rewrite (IH (map_set (tabId info) info m) acc).
      * rewrite (map_get_set_other _ _ _ _ Hne). reflexivity.
      * rewrite (map_get_set_other _ _ _ _ Hne). exact Hacc.
Qed.

(** Whatever the storage holds, loading it files each stored record under
    its own tab id: a tab's record afterwards is the last one stored under
    its id, or the one it had when none is stored; entries that are no
    records or have no numeric tab id are passed over, and the display
    preference is taken only when a boolean is stored. *)
Theorem storage_load_lookup (w : World) (k : Z) :
  let w' := step StorageLoaded w in
  map_get k (tabDurations (coord w'))
  = match storedTabDurationsCache (browser w) with
    | Some items =>
        match lastStored k items with
        | Some v => Some v
        | None => map_get k (tabDurations (coord w))
        end
    | None => map_get k (tabDurations (coord w))
    end /\
  displayEnabled (coord w')
  = match storedDisplayEnabled (browser w) with
    | Some v => v
    | None => displayEnabled (coord w)
    end.
Proof.
  cbv zeta. unfold step, onStorageLoaded. split.
  - rewrite tabDurations_updateBadge.
    destruct (storedDisplayEnabled (browser w)); simpl;
      (destruct (storedTabDurationsCache (browser w)) as [items|]; simpl; [|reflexivity]);
      unfold lastStored; apply restoreCache_lookup_acc; reflexivity.
  - unfold updateBadge, schedulePersist.
    destruct w as [[m d pt] [bt bc sd sc ts nx fl cs]]. simpl.
    destruct sd as [[|]|], sc, d, pt; reflexivity.
Qed.

(** ** Toggling twice *)

(** Two toggles in a row bring the display preference back, in the worker
    and in the storage, leave the mapping alone and leave the badge painted
    for the preference as it was. *)
Theorem toggle_twice_restores (w : World) :
  let w1 := snd (onToggleDisplay w) in
  let w2 := snd (onToggleDisplay w1) in
  fst (onToggleDisplay w1) = displayEnabled (coord w) /\
  displayEnabled (coord w2) = displayEnabled (coord w) /\
  storedDisplayEnabled (browser w2) = Some (displayEnabled (coord w)) /\
  tabDurations (coord w2) = tabDurations (coord w) /\
  badgeText (browser w2) = badgeOf (coord w).
Proof.
  cbv zeta. destruct w as [[m d pt] b].
  unfold onToggleDisplay, updateBadge, schedulePersist, badgeOf.
  destruct d, pt; simpl; repeat split; reflexivity.
Qed.
